(** * Maturity scoring lambdas: a shallow embedding and its properties

    This development embeds two AWS Lambda functions of the maturity
    assessment repository,

      - [lambda-functions/calculate_score.py]    (class [MaturityCalculator],
        [get_assessment_results], [calculate_scores], [lambda_handler]) and
      - [lambda-functions/get_metric_details.py] ([get_metric_details],
        [lambda_handler]),

    and proves properties of the scoring pipeline.

    Modelling conventions.

    - A Python [float] is an exact rational ([Q]).  The comparisons the code
      performs are against the constants 0, 1.5, 2.5, 3.5 and 5, which are
      exact for every finite float; sums, products and quotients are the
      exact ones, so binary rounding error is abstracted away.
    - A Python [int] is a [Z]; [str] is [string].
    - A Python exception is a value of [exn]; code that may raise returns
      [exc A], and [try ... except Exception] is a match on it.
    - A [dict] whose iteration order is observable is an association list in
      insertion order ([Py.dict_set] replaces in place or appends at the end,
      as assignment to a Python dict does).
    - The RDS Data API client is a record of the three statements the code
      executes, each already decoded to typed rows; a failure of the call or
      of the decoding of a record is the [Raise] result of that statement. *)

From Stdlib Require Import List String Ascii ZArith QArith Qround Bool Lia Lqa.
From Stdlib Require Import DecimalString.
Import ListNotations.

Local Open Scope string_scope.
Local Open Scope Q_scope.

(** ** A fragment of the Python run time *)

Module Py.

(** The exceptions that can arise in the embedded code. *)
Inductive exn : Type :=
| ZeroDivisionError
| KeyError (key : string)
| ValueError (msg : string)
| ClientError (msg : string).

(** [str(e)] *)
Definition str_exn (e : exn) : string :=
  match e with
  | ZeroDivisionError => "division by zero"
  | KeyError key => "'" ++ key ++ "'"
  | ValueError msg => msg
  | ClientError msg => msg
  end.

Inductive exc (A : Type) : Type :=
| Ok (a : A)
| Raise (e : exn).
Arguments Ok {A} a.
Arguments Raise {A} e.

Definition bind {A B : Type} (m : exc A) (k : A -> exc B) : exc B :=
  match m with
  | Ok a => k a
  | Raise e => Raise e
  end.

Fixpoint mapM {A B : Type} (f : A -> exc B) (l : list A) : exc (list B) :=
  match l with
  | [] => Ok []
  | x :: l' =>
      bind (f x) (fun y => bind (mapM f l') (fun ys => Ok (y :: ys)))
  end.

(** [x < y] on floats. *)
Definition Qlt_bool (x y : Q) : bool := negb (Qle_bool y x).

(** [a / b]: true division, which raises on a zero divisor. *)
Definition truediv (a b : Q) : exc Q :=
  if Qeq_bool b 0 then Raise ZeroDivisionError else Ok (a / b).

(** [sum(...)] over floats. *)
Definition sum (l : list Q) : Q := fold_left Qplus l 0.

(** [round(x, ndigits)] on a float: the nearest multiple of
    [10 ** -ndigits], a tie going to the even neighbour.  (On rationals a
    tie is an exact half; none of the values rounded below is one.) *)
Definition round (x : Q) (ndigits : nat) : Q :=
  let scale := (10 ^ Z.of_nat ndigits)%Z in
  let y := x * inject_Z scale in
  let lo := Qfloor y in
  let n := match (y - inject_Z lo) ?= (1 # 2) with
           | Lt => lo
           | Gt => (lo + 1)%Z
           | Eq => if Z.even lo then lo else (lo + 1)%Z
           end in
  Qmake n (Z.to_pos scale).

(** Numbers as they appear in a JSON-bound dict: [int] and [float] stay
    distinct ([0] is not [0.0] once serialised). *)
Inductive num : Type :=
| PInt (n : Z)
| PFloat (x : Q).

Definition num_value (v : num) : Q :=
  match v with
  | PInt n => inject_Z n
  | PFloat x => x
  end.

(** [round(v, ndigits)]: an [int] is returned as it is when
    [ndigits >= 0]. *)
Definition round_num (v : num) (ndigits : nat) : num :=
  match v with
  | PInt n => PInt n
  | PFloat x => PFloat (round x ndigits)
  end.

(** Insertion-ordered dictionaries with string keys. *)
Section Dict.
Context {V : Type}.

Definition dict : Type := list (string * V).

Fixpoint dict_get (k : string) (d : dict) : option V :=
  match d with
  | [] => None
  | (k', v) :: d' => if String.eqb k k' then Some v else dict_get k d'
  end.

(** [k in d] *)
Definition dict_contains (k : string) (d : dict) : bool :=
  match dict_get k d with
  | Some _ => true
  | None => false
  end.

(** [d[k] = v] *)
Fixpoint dict_set (k : string) (v : V) (d : dict) : dict :=
  match d with
  | [] => [(k, v)]
  | (k', v') :: d' =>
      if String.eqb k k' then (k, v) :: d' else (k', v') :: dict_set k v d'
  end.

(** [d[k] = f(d[k])], the shape of an in-place change of the value stored
    under [k].  Python raises [KeyError] when [k] is absent; here the dict is
    returned as it is, and every use below follows a step that stores [k]. *)
Fixpoint dict_update (k : string) (f : V -> V) (d : dict) : dict :=
  match d with
  | [] => []
  | (k', v) :: d' =>
      if String.eqb k k' then (k', f v) :: d' else (k', v) :: dict_update k f d'
  end.

(** [d.values()] *)
Definition dict_values (d : dict) : list V := map snd d.
End Dict.
Arguments dict V : clear implicits.

(** [str(n)] for an [int]. *)
Definition str_int (n : Z) : string := NilZero.string_of_int (Z.to_int n).

End Py.

Import Py.

Declare Scope exc_scope.
Delimit Scope exc_scope with exc.
Notation "x <- m ;; k" := (bind m (fun x => k))
  (at level 61, m at next level, right associativity) : exc_scope.
Notation "' pat <- m ;; k" := (bind m (fun x => match x with pat => k end))
  (at level 61, pat pattern, m at next level, right associativity) : exc_scope.

(** ** [calculate_score.py]: class [MaturityCalculator] *)

Module MaturityCalculator.

(** An element of the [metrics] list of a topic:
    [{'id', 'name', 'score', 'weight'}]. *)
Record metric_entry : Type := {
  me_id : string;
  me_name : string;
  me_score : Q;
  me_weight : Q
}.

(** An element of [topics_list]: [{'score', 'weight'}]. *)
Record topic_sw : Type := {
  ts_score : Q;
  ts_weight : Q
}.

(** An element of [pillar_scores]:
    [{'id', 'name', 'score', 'weight', 'topic_count'}]. *)
Record pillar_score_row : Type := {
  ps_id : string;
  ps_name : string;
  ps_score : Q;
  ps_weight : Q;
  ps_topic_count : nat
}.

Definition MATURITY_LEVELS : list ((Q * Q) * string) :=
  [ ((0.0, 1.5), "INITIAL");
    ((1.5, 2.5), "MANAGED");
    ((2.5, 3.5), "DEFINED");
    ((3.5, 5.0), "OPTIMIZING") ].

(** The [for] loop of [get_maturity_level] over the items of a dict. *)
Fixpoint first_level (items : list ((Q * Q) * string)) (score : Q)
  : option string :=
  match items with
  | [] => None
  | ((min_score, max_score), level) :: rest =>
      if Qle_bool min_score score && Qlt_bool score max_score
      then Some level
      else first_level rest score
  end.

Definition get_maturity_level (score : Q) : string :=
  match first_level MATURITY_LEVELS score with
  | Some level => level
  | None => "OPTIMIZING"
  end.

Definition calculate_metric_score (metric_value : Q) (metric_level : Z) : Q :=
  inject_Z metric_level.

Definition calculate_topic_score (metric_scores : list metric_entry) : exc Q :=
  match metric_scores with
  | [] => Ok 0.0
  | _ =>
      let total := sum (map me_score metric_scores) in
      truediv total (inject_Z (Z.of_nat (List.length metric_scores)))
  end.

Definition calculate_pillar_score (topic_scores : list topic_sw) : exc Q :=
  match topic_scores with
  | [] => Ok 0.0
  | _ =>
      let weighted_sum :=
        sum (map (fun t => ts_score t * ts_weight t) topic_scores) in
      let total_weight := sum (map ts_weight topic_scores) in
      if Qlt_bool 0 total_weight
      then truediv weighted_sum total_weight
      else Ok 0.0
  end.

Definition calculate_overall_score (pillar_scores : list pillar_score_row)
  : exc Q :=
  match pillar_scores with
  | [] => Ok 0.0
  | _ =>
      let weighted_sum :=
        sum (map (fun p => ps_score p * ps_weight p) pillar_scores) in
      let total_weight := sum (map ps_weight pillar_scores) in
      if Qlt_bool 0 total_weight
      then truediv weighted_sum total_weight
      else Ok 0.0
  end.

End MaturityCalculator.

(** ** [calculate_score.py]: the scoring pipeline *)

Module CalculateScore.
Import MaturityCalculator.
Local Open Scope exc_scope.

(** One decoded record of the query of [get_assessment_results]. *)
Record result_row : Type := {
  id : string;
  metric_id : string;
  value : Q;
  metric_name : string;
  metric_level : Z;
  metric_weight : Q;
  topic_id : string;
  topic_name : string;
  topic_weight : Q;
  pillar_id : string;
  pillar_name : string;
  pillar_weight : Q
}.

(** The statements this lambda sends through [rds_data.execute_statement]:
    the join over the answers of a session, decoded record by record, and
    [SELECT COUNT( * ) FROM metrics WHERE active = true] followed by
    [['records'][0][0]['longValue']]. *)
Record rds_client : Type := {
  select_assessment_results : string -> exc (list result_row);
  select_active_metric_count : exc Z
}.

(** The [try]/[except Exception] of [get_assessment_results]: any fault
    yields the empty list. *)
Definition get_assessment_results (rds_data : rds_client) (session_id : string)
  : list result_row :=
  match select_assessment_results rds_data session_id with
  | Ok results => results
  | Raise _ => []
  end.

(** A value of [pillar_data[pillar_id]['topics']]; the key ['score'] is
    absent until the topic loop assigns it. *)
Record topic_entry : Type := {
  te_id : string;
  te_name : string;
  te_weight : Q;
  te_metrics : list metric_entry;
  te_score : option Q
}.

(** A value of [pillar_data]. *)
Record pillar_entry : Type := {
  pe_id : string;
  pe_name : string;
  pe_weight : Q;
  pe_topics : dict topic_entry
}.

(** An element of [topic_scores]. *)
Record topic_score_row : Type := {
  tsr_id : string;
  tsr_name : string;
  tsr_score : Q;
  tsr_weight : Q;
  tsr_metric_count : nat
}.

(** The dict returned by [calculate_scores].  The keys ['metric_scores'],
    ['calculation_timestamp'] and ['algorithm_version'] are present on one
    of the two return paths only. *)
Record report : Type := {
  session_id : string;
  overall_score : Q;
  maturity_level : string;
  pillar_scores : list pillar_score_row;
  topic_scores : list topic_score_row;
  metric_scores : option (list metric_entry);
  statistics : dict num;
  calculation_timestamp : option string;
  algorithm_version : option string
}.

(** [pillar['topics'] = topics] *)
Definition set_topics (pillar : pillar_entry) (topics : dict topic_entry)
  : pillar_entry :=
  {| pe_id := pe_id pillar;
     pe_name := pe_name pillar;
     pe_weight := pe_weight pillar;
     pe_topics := topics |}.

(** [topic['metrics'].append(m)] *)
Definition append_metric (topic : topic_entry) (m : metric_entry)
  : topic_entry :=
  {| te_id := te_id topic;
     te_name := te_name topic;
     te_weight := te_weight topic;
     te_metrics := te_metrics topic ++ [m];
     te_score := te_score topic |}.

(** [if pillar_id not in pillar_data: pillar_data[pillar_id] = {...}] *)
Definition init_pillar (result : result_row) (pillar_data : dict pillar_entry)
  : dict pillar_entry :=
  if dict_contains (pillar_id result) pillar_data
  then pillar_data
  else dict_set (pillar_id result)
                {| pe_id := pillar_id result;
                   pe_name := pillar_name result;
                   pe_weight := pillar_weight result;
                   pe_topics := [] |}
                pillar_data.

(** [if topic_id not in pillar_data[pillar_id]['topics']: ... = {...}] *)
Definition init_topic (result : result_row) (pillar_data : dict pillar_entry)
  : dict pillar_entry :=
  dict_update (pillar_id result)
    (fun pillar =>
       if dict_contains (topic_id result) (pe_topics pillar)
       then pillar
       else set_topics pillar
              (dict_set (topic_id result)
                        {| te_id := topic_id result;
                           te_name := topic_name result;
                           te_weight := topic_weight result;
                           te_metrics := [];
                           te_score := None |}
                        (pe_topics pillar)))
    pillar_data.

(** [pillar_data[pillar_id]['topics'][topic_id]['metrics'].append({...})],
    with the metric score computed first. *)
Definition add_metric (result : result_row) (pillar_data : dict pillar_entry)
  : dict pillar_entry :=
  let metric_score :=
    calculate_metric_score (value result) (metric_level result) in
  dict_update (pillar_id result)
    (fun pillar =>
       set_topics pillar
         (dict_update (topic_id result)
            (fun topic =>
               append_metric topic
                 {| me_id := metric_id result;
                    me_name := metric_name result;
                    me_score := metric_score;
                    me_weight := metric_weight result |})
            (pe_topics pillar)))
    pillar_data.

(** The body of the grouping loop, for one [result]. *)
Definition group_result (pillar_data : dict pillar_entry) (result : result_row)
  : dict pillar_entry :=
  add_metric result (init_topic result (init_pillar result pillar_data)).

Definition group_results (results : list result_row) : dict pillar_entry :=
  fold_left group_result results [].

(** The body of the topic loop: the displayed row carries the rounded
    score, the topic keeps the score as computed. *)
Definition score_topic (topic : topic_entry)
  : exc (topic_score_row * topic_entry) :=
  topic_score <- calculate_topic_score (te_metrics topic) ;;
  Ok ({| tsr_id := te_id topic;
         tsr_name := te_name topic;
         tsr_score := round topic_score 2;
         tsr_weight := te_weight topic;
         tsr_metric_count := List.length (te_metrics topic) |},
      {| te_id := te_id topic;
         te_name := te_name topic;
         te_weight := te_weight topic;
         te_metrics := te_metrics topic;
         te_score := Some topic_score |}).

Definition score_topics_of (pillar : pillar_entry)
  : exc (list topic_score_row * pillar_entry) :=
  scored <- mapM (fun kt : string * topic_entry =>
                    ' (row, topic') <- score_topic (snd kt) ;;
                    Ok (row, (fst kt, topic')))
                 (pe_topics pillar) ;;
  Ok (map fst scored,
      {| pe_id := pe_id pillar;
         pe_name := pe_name pillar;
         pe_weight := pe_weight pillar;
         pe_topics := map snd scored |}).

(** The topic loop: [topic_scores] in iteration order, and [pillar_data]
    with every topic's ['score'] assigned. *)
Definition score_topics (pillar_data : dict pillar_entry)
  : exc (list topic_score_row * dict pillar_entry) :=
  scored <- mapM (fun kp : string * pillar_entry =>
                    ' (rows, pillar') <- score_topics_of (snd kp) ;;
                    Ok (rows, (fst kp, pillar')))
                 pillar_data ;;
  Ok (List.concat (map fst scored), map snd scored).

(** [{'score': t['score'], 'weight': t['weight']}] *)
Definition topic_sw_of (t : topic_entry) : exc topic_sw :=
  match te_score t with
  | Some score => Ok {| ts_score := score; ts_weight := te_weight t |}
  | None => Raise (KeyError "score")
  end.

(** The body of the pillar loop. *)
Definition score_pillar (pillar : pillar_entry) : exc pillar_score_row :=
  topics_list <- mapM topic_sw_of (dict_values (pe_topics pillar)) ;;
  pillar_score <- calculate_pillar_score topics_list ;;
  Ok {| ps_id := pe_id pillar;
        ps_name := pe_name pillar;
        ps_score := round pillar_score 2;
        ps_weight := pe_weight pillar;
        ps_topic_count := List.length (pe_topics pillar) |}.

Definition score_pillars (pillar_data : dict pillar_entry)
  : exc (list pillar_score_row) :=
  mapM score_pillar (dict_values pillar_data).

(** [(answered_metrics / total_metrics * 100) if total_metrics > 0 else 0] *)
Definition completion (answered_metrics total_metrics : Z) : exc num :=
  if (total_metrics >? 0)%Z
  then q <- truediv (inject_Z answered_metrics) (inject_Z total_metrics) ;;
       Ok (PFloat (q * 100))
  else Ok (PInt 0).

Definition calculate_scores (rds_data : rds_client) (session_id : string)
  : exc report :=
  let results := get_assessment_results rds_data session_id in
  match results with
  | [] =>
      Ok {| session_id := session_id;
            overall_score := 0.0;
            maturity_level := "INITIAL";
            pillar_scores := [];
            topic_scores := [];
            metric_scores := Some [];
            statistics := [ ("total_metrics", PInt 0);
                            ("answered_metrics", PInt 0);
                            ("completion_percentage", PFloat 0.0) ];
            calculation_timestamp := None;
            algorithm_version := None |}
  | _ =>
      let pillar_data := group_results results in
      ' (topic_scores, pillar_data) <- score_topics pillar_data ;;
      pillar_scores <- score_pillars pillar_data ;;
      overall_score <- calculate_overall_score pillar_scores ;;
      let maturity_level := get_maturity_level overall_score in
      total_metrics <- select_active_metric_count rds_data ;;
      let answered_metrics := Z.of_nat (List.length results) in
      completion_percentage <- completion answered_metrics total_metrics ;;
      Ok {| session_id := session_id;
            overall_score := round overall_score 2;
            maturity_level := maturity_level;
            pillar_scores := pillar_scores;
            topic_scores := topic_scores;
            metric_scores := None;
            statistics :=
              [ ("total_metrics", PInt total_metrics);
                ("answered_metrics", PInt answered_metrics);
                ("completion_percentage", round_num completion_percentage 1) ];
            calculation_timestamp := Some "real-time";
            algorithm_version := Some "lambda-v1.0" |}
  end.

(** An element of [event['parameters']]. *)
Record parameter : Type := {
  p_name : string;
  p_type : string;
  p_value : string
}.

(** The Bedrock Agent event; a key that may be missing is an [option]. *)
Record event : Type := {
  ev_actionGroup : option string;
  ev_apiPath : option string;
  ev_httpMethod : option string;
  ev_parameters : option (list parameter);
  ev_sessionAttributes : option (dict string);
  ev_promptSessionAttributes : option (dict string)
}.

(** The decoded ['body'] of a response. *)
Inductive body : Type :=
| BodyResult (calculation_result : report)
| BodyError (error message : string).

Record response : Type := {
  r_messageVersion : string;
  r_actionGroup : string;
  r_apiPath : string;
  r_httpMethod : string;
  r_httpStatusCode : Z;
  r_body : body;
  r_sessionAttributes : option (dict string);
  r_promptSessionAttributes : option (dict string)
}.

(** [event[key]] *)
Definition getitem {A : Type} (key : string) (field : option A) : exc A :=
  match field with
  | Some v => Ok v
  | None => Raise (KeyError key)
  end.

(** [event.get(key, default)] *)
Definition get_default {A : Type} (field : option A) (default : A) : A :=
  match field with
  | Some v => v
  | None => default
  end.

(** The parameter loop: the value of the first parameter called [name]. *)
Fixpoint find_parameter (name : string) (parameters : list parameter)
  : option string :=
  match parameters with
  | [] => None
  | param :: rest =>
      if String.eqb (p_name param) name
      then Some (p_value param)
      else find_parameter name rest
  end.

(** The [try] block of [lambda_handler]. *)
Definition handle (rds_data : rds_client) (ev : event) : exc response :=
  let session_id :=
    find_parameter "sessionId" (get_default (ev_parameters ev) []) in
  match session_id with
  | None | Some "" => Raise (ValueError "sessionId parameter is required")
  | Some session_id =>
      calculation_result <- calculate_scores rds_data session_id ;;
      actionGroup <- getitem "actionGroup" (ev_actionGroup ev) ;;
      apiPath <- getitem "apiPath" (ev_apiPath ev) ;;
      httpMethod <- getitem "httpMethod" (ev_httpMethod ev) ;;
      Ok {| r_messageVersion := "1.0";
            r_actionGroup := actionGroup;
            r_apiPath := apiPath;
            r_httpMethod := httpMethod;
            r_httpStatusCode := 200;
            r_body := BodyResult calculation_result;
            r_sessionAttributes :=
              Some (get_default (ev_sessionAttributes ev) []);
            r_promptSessionAttributes :=
              Some (get_default (ev_promptSessionAttributes ev) []) |}
  end.

Definition lambda_handler (rds_data : rds_client) (ev : event) : response :=
  match handle rds_data ev with
  | Ok response => response
  | Raise e =>
      {| r_messageVersion := "1.0";
         r_actionGroup := get_default (ev_actionGroup ev) "";
         r_apiPath := get_default (ev_apiPath ev) "";
         r_httpMethod := get_default (ev_httpMethod ev) "";
         r_httpStatusCode := 500;
         r_body := BodyError (str_exn e) "Failed to calculate scores";
         r_sessionAttributes := None;
         r_promptSessionAttributes := None |}
  end.

End CalculateScore.

(** ** [get_metric_details.py] *)

Module GetMetricDetails.
Local Open Scope exc_scope.

(** One decoded record of [metric_query] (columns 1 to 15; column 0 is not
    read, the requested id is echoed instead). *)
Record metric_record : Type := {
  metric_name : string;
  metric_description : string;
  level : Z;
  metric_type : string;
  min_value : Q;
  max_value : Q;
  weight : Q;
  tags : list string;
  topic_id : string;
  topic_name : string;
  topic_description : string;
  pillar_id : string;
  pillar_name : string;
  pillar_description : string;
  category : string
}.

(** [metric_query] with [:metric_id] bound: the active metrics with that
    id, joined with their topic and pillar. *)
Record rds_client : Type := {
  select_metric : string -> exc (list metric_record)
}.

Record metric_info : Type := {
  m_id : string;
  m_name : string;
  m_description : string;
  m_level : Z;
  m_type : string;
  m_minValue : Q;
  m_maxValue : Q;
  m_weight : Q;
  m_tags : list string
}.

Record topic_info : Type := {
  t_id : string;
  t_name : string;
  t_description : string
}.

Record pillar_info : Type := {
  pl_id : string;
  pl_name : string;
  pl_description : string;
  pl_category : string
}.

Record guidance_info : Type := {
  criteria_available : string;
  best_practices_source : string;
  recommendation : string
}.

(** The dict returned by [get_metric_details]: either the two keys
    ['error'] and ['metric_id'], or the four keys of the details. *)
Inductive metric_data : Type :=
| MetricError (error : string) (metric_id : string)
| MetricDetails (metric : metric_info) (topic : topic_info)
                (pillar : pillar_info) (guidance : guidance_info).

(** ['error' in metric_data] *)
Definition has_error (d : metric_data) : bool :=
  match d with
  | MetricError _ _ => true
  | MetricDetails _ _ _ _ => false
  end.

Definition details_of (metric_id : string) (record : metric_record)
  : metric_data :=
  MetricDetails
    {| m_id := metric_id;
       m_name := metric_name record;
       m_description := metric_description record;
       m_level := level record;
       m_type := metric_type record;
       m_minValue := min_value record;
       m_maxValue := max_value record;
       m_weight := weight record;
       m_tags := tags record |}
    {| t_id := topic_id record;
       t_name := topic_name record;
       t_description := topic_description record |}
    {| pl_id := pillar_id record;
       pl_name := pillar_name record;
       pl_description := pillar_description record;
       pl_category := category record |}
    {| criteria_available :=
         "Check Knowledge Base for " ++ metric_name record ++ " criteria";
       best_practices_source := "YAML configuration in Knowledge Base";
       recommendation :=
         "Focus on Level " ++ str_int (level record) ++ " requirements" |}.

Definition get_metric_details (rds_data : rds_client) (metric_id : string)
  : metric_data :=
  match select_metric rds_data metric_id with
  | Ok [] => MetricError ("Metric not found: " ++ metric_id) metric_id
  | Ok (record :: _) => details_of metric_id record
  | Raise e => MetricError (str_exn e) metric_id
  end.

Record parameter : Type := {
  p_name : string;
  p_type : string;
  p_value : string
}.

Record event : Type := {
  ev_actionGroup : option string;
  ev_apiPath : option string;
  ev_httpMethod : option string;
  ev_parameters : option (list parameter);
  ev_sessionAttributes : option (dict string);
  ev_promptSessionAttributes : option (dict string)
}.

Inductive body : Type :=
| BodyData (d : metric_data)
| BodyError (error message : string).

Record response : Type := {
  r_messageVersion : string;
  r_actionGroup : string;
  r_apiPath : string;
  r_httpMethod : string;
  r_httpStatusCode : Z;
  r_body : body;
  r_sessionAttributes : option (dict string);
  r_promptSessionAttributes : option (dict string)
}.

Definition getitem {A : Type} (key : string) (field : option A) : exc A :=
  match field with
  | Some v => Ok v
  | None => Raise (KeyError key)
  end.

Definition get_default {A : Type} (field : option A) (default : A) : A :=
  match field with
  | Some v => v
  | None => default
  end.

Fixpoint find_parameter (name : string) (parameters : list parameter)
  : option string :=
  match parameters with
  | [] => None
  | param :: rest =>
      if String.eqb (p_name param) name
      then Some (p_value param)
      else find_parameter name rest
  end.

(** The [try] block of [lambda_handler]. *)
Definition handle (rds_data : rds_client) (ev : event) : exc response :=
  let metric_id :=
    find_parameter "metricId" (get_default (ev_parameters ev) []) in
  match metric_id with
  | None | Some "" => Raise (ValueError "metricId parameter is required")
  | Some metric_id =>
      let metric_data := get_metric_details rds_data metric_id in
      actionGroup <- getitem "actionGroup" (ev_actionGroup ev) ;;
      apiPath <- getitem "apiPath" (ev_apiPath ev) ;;
      httpMethod <- getitem "httpMethod" (ev_httpMethod ev) ;;
      Ok {| r_messageVersion := "1.0";
            r_actionGroup := actionGroup;
            r_apiPath := apiPath;
            r_httpMethod := httpMethod;
            r_httpStatusCode := if has_error metric_data then 404 else 200;
            r_body := BodyData metric_data;
            r_sessionAttributes :=
              Some (get_default (ev_sessionAttributes ev) []);
            r_promptSessionAttributes :=
              Some (get_default (ev_promptSessionAttributes ev) []) |}
  end.

Definition lambda_handler (rds_data : rds_client) (ev : event) : response :=
  match handle rds_data ev with
  | Ok response => response
  | Raise e =>
      {| r_messageVersion := "1.0";
         r_actionGroup := get_default (ev_actionGroup ev) "";
         r_apiPath := get_default (ev_apiPath ev) "";
         r_httpMethod := get_default (ev_httpMethod ev) "";
         r_httpStatusCode := 500;
         r_body := BodyError (str_exn e) "Failed to get metric details";
         r_sessionAttributes := None;
         r_promptSessionAttributes := None |}
  end.

End GetMetricDetails.

(** ** The weighted mean and the arithmetic mean, as the specification
       writes them *)

Module Spec.

(** [Σ f(x)] over a list. *)
Definition Sigma {A : Type} (f : A -> Q) (l : list A) : Q :=
  fold_right (fun x acc => f x + acc) 0 l.

(** The arithmetic mean of a non-empty list of scores. *)
Definition arithmetic_mean (scores : list Q) : Q :=
  Sigma (fun s => s) scores / inject_Z (Z.of_nat (List.length scores)).

(** [Σ(score·weight) / Σ(weight)] over (score, weight) pairs. *)
Definition weighted_mean (pairs : list (Q * Q)) : Q :=
  Sigma (fun p => fst p * snd p) pairs / Sigma snd pairs.

End Spec.

(** ** Sample sessions *)

Module Fixtures.
Import MaturityCalculator CalculateScore.

Definition answer (metric : string) (value : Q) (level : Z)
           (topic : string) (topic_weight : Q)
           (pillar : string) (pillar_weight : Q) : result_row :=
  {| id := "r-" ++ metric;
     metric_id := metric;
     value := value;
     metric_name := "metric " ++ metric;
     metric_level := level;
     metric_weight := 1.0;
     topic_id := topic;
     topic_name := "topic " ++ topic;
     topic_weight := topic_weight;
     pillar_id := pillar;
     pillar_name := "pillar " ++ pillar;
     pillar_weight := pillar_weight |}.

(** A database in which every session holds [rows], with [total] active
    metrics. *)
Definition rds_of (rows : list result_row) (total : exc Z) : rds_client :=
  {| select_assessment_results := fun _ => Ok rows;
     select_active_metric_count := total |}.

(** One answer of value 3.0 to a metric whose declared level is 1. *)
Definition session_level_vs_value : list result_row :=
  [ answer "m1" 3.0 1 "t1" 1.0 "p1" 1.0 ].

(** One pillar, two topics of weights 499 and 501 scoring 4 and 3. *)
Definition session_near_cutoff : list result_row :=
  [ answer "m1" 4.0 4 "t1" 499.0 "p1" 1.0;
    answer "m2" 3.0 3 "t2" 501.0 "p1" 1.0 ].

(** Five answers in one topic. *)
Definition session_five_answers : list result_row :=
  [ answer "m1" 2.0 2 "t1" 1.0 "p1" 1.0;
    answer "m2" 3.0 3 "t1" 1.0 "p1" 1.0;
    answer "m3" 4.0 4 "t1" 1.0 "p1" 1.0;
    answer "m4" 1.0 1 "t1" 1.0 "p1" 1.0;
    answer "m5" 5.0 5 "t1" 1.0 "p1" 1.0 ].

Definition sample_event (parameters : list parameter) : event :=
  {| ev_actionGroup := Some "CalculationActions";
     ev_apiPath := Some "/calculate/score";
     ev_httpMethod := Some "POST";
     ev_parameters := Some parameters;
     ev_sessionAttributes := Some [];
     ev_promptSessionAttributes := Some [] |}.

Definition session_parameter (session : string) : parameter :=
  {| p_name := "sessionId"; p_type := "string"; p_value := session |}.

(** A what-if override list, as the text of an [answers] parameter. *)
Definition answers_parameter (answers : string) : parameter :=
  {| p_name := "answers"; p_type := "array"; p_value := answers |}.

(** A metric store with no active metric at all. *)
Definition no_metrics : GetMetricDetails.rds_client :=
  {| GetMetricDetails.select_metric := fun _ => Ok [] |}.

Definition metric_event (metric : string) : GetMetricDetails.event :=
  {| GetMetricDetails.ev_actionGroup := Some "AssessmentContextActions";
     GetMetricDetails.ev_apiPath := Some "/metric/details";
     GetMetricDetails.ev_httpMethod := Some "GET";
     GetMetricDetails.ev_parameters :=
       Some [ {| GetMetricDetails.p_name := "metricId";
                 GetMetricDetails.p_type := "string";
                 GetMetricDetails.p_value := metric |} ];
     GetMetricDetails.ev_sessionAttributes := Some [];
     GetMetricDetails.ev_promptSessionAttributes := Some [] |}.

End Fixtures.

(** ** [get_assessment_context.py] *)

Module GetAssessmentContext.
Local Open Scope exc_scope.

(** One column of an RDS Data API record: a dict that may hold the keys
    ['stringValue'], ['longValue'] and ['isNull']. *)
Record field : Type := {
  stringValue : option string;
  longValue : option Z;
  isNull : option bool
}.

(** [f['stringValue']] *)
Definition get_string (f : field) : exc string :=
  match stringValue f with
  | Some s => Ok s
  | None => Raise (KeyError "stringValue")
  end.

(** [f['longValue']] *)
Definition get_long (f : field) : exc Z :=
  match longValue f with
  | Some n => Ok n
  | None => Raise (KeyError "longValue")
  end.

(** [f.get('stringValue', default)] *)
Definition string_or (f : field) (default : string) : string :=
  match stringValue f with
  | Some s => s
  | None => default
  end.

(** [f.get('isNull') is False] *)
Definition not_null (f : field) : bool :=
  match isNull f with
  | Some false => true
  | _ => false
  end.

(** [f.get('stringValue') if f.get('isNull') is False else None] *)
Definition nullable_string (f : field) : option string :=
  if not_null f then stringValue f else None.

(** The columns of [session_query] that the code reads (1 to 5 and 7 to
    14). *)
Record session_record : Type := {
  c_status : field;
  c_started_at : field;
  c_completed_at : field;
  c_last_modified : field;
  c_current_pillar_id : field;
  c_target_id : field;
  c_target_name : field;
  c_target_type : field;
  c_target_description : field;
  c_pillar_id : field;
  c_pillar_name : field;
  c_org_id : field;
  c_org_name : field
}.

(** The columns of [progress_query]. *)
Record progress_record : Type := {
  c_answered_count : field;
  c_first_answer : field;
  c_last_answer : field
}.

(** The columns of [pillar_progress_query]. *)
Record pillar_progress_record : Type := {
  c_pp_id : field;
  c_pp_name : field;
  c_pp_answered : field;
  c_pp_total : field
}.

(** An element of [recent_activity]. *)
Record recent_answer : Type := {
  ra_id : string;
  ra_value : Q;
  ra_assessed_at : string;
  ra_metric_name : string;
  ra_topic_name : string;
  ra_pillar_name : string
}.

(** The five statements of [get_session_details], in the order they are
    sent: the session join ([response['records']]), the progress counts
    ([['records'][0]]), the count of active metrics
    ([['records'][0][0]['longValue']]), the last five answers, decoded, and
    the per-pillar counts ([.get('records', [])]). *)
Record rds_client : Type := {
  select_session : string -> exc (list session_record);
  select_progress : string -> exc progress_record;
  select_active_metric_count : exc Z;
  select_recent_answers : string -> exc (list recent_answer);
  select_pillar_progress : string -> exc (list pillar_progress_record)
}.

Record session_info : Type := {
  si_id : string;
  si_status : string;
  si_started_at : string;
  si_completed_at : option string;
  si_last_modified : string;
  si_current_pillar_id : option string
}.

Record target_info : Type := {
  tg_id : string;
  tg_name : string;
  tg_type : string;
  tg_description : string
}.

(** The dicts under ['current_pillar'] and ['organization']. *)
Record named_ref : Type := {
  ref_id : option string;
  ref_name : option string
}.

Record progress_info : Type := {
  pr_total_metrics : Z;
  pr_answered_metrics : Z;
  pr_remaining_metrics : Z;
  pr_completion_percentage : num;
  pr_first_answer_at : option string;
  pr_last_answer_at : option string
}.

Record pillar_progress_row : Type := {
  pp_pillar_id : string;
  pp_pillar_name : string;
  pp_answered : Z;
  pp_total : Z;
  pp_completion_percentage : num
}.

(** The dict returned by [get_session_details]: either the keys ['error']
    and ['session_id'], or the seven keys of the context. *)
Inductive session_context : Type :=
| SessionError (error : string) (session_id : string)
| SessionData (session : session_info) (target : target_info)
              (current_pillar organization : option named_ref)
              (progress : progress_info)
              (recent_activity : list recent_answer)
              (pillar_progress : list pillar_progress_row).

(** ['error' in session_context] *)
Definition has_error (c : session_context) : bool :=
  match c with
  | SessionError _ _ => true
  | SessionData _ _ _ _ _ _ _ => false
  end.

(** [round((answered / total * 100), 1) if total > 0 else 0] *)
Definition completion (answered total : Z) : exc num :=
  if (total >? 0)%Z
  then q <- truediv (inject_Z answered) (inject_Z total) ;;
       Ok (PFloat (round (q * 100) 1))
  else Ok (PInt 0).

(** [{...} if f.get('isNull') is False else None], for the two columns of a
    pillar or an organization. *)
Definition named_ref_of (id_column name_column : field) : option named_ref :=
  if not_null id_column
  then Some {| ref_id := nullable_string id_column;
               ref_name := nullable_string name_column |}
  else None.

(** The body of the pillar progress loop. *)
Definition pillar_progress_of (rec : pillar_progress_record)
  : exc pillar_progress_row :=
  total <- get_long (c_pp_total rec) ;;
  answered <- get_long (c_pp_answered rec) ;;
  pillar_id <- get_string (c_pp_id rec) ;;
  pillar_name <- get_string (c_pp_name rec) ;;
  completion_percentage <- completion answered total ;;
  Ok {| pp_pillar_id := pillar_id;
        pp_pillar_name := pillar_name;
        pp_answered := answered;
        pp_total := total;
        pp_completion_percentage := completion_percentage |}.

(** The [try] block of [get_session_details], once a session record is
    there. *)
Definition session_details_of
           (rds_data : rds_client) (session_id : string)
           (record : session_record) : exc session_context :=
  status <- get_string (c_status record) ;;
  started_at <- get_string (c_started_at record) ;;
  last_modified <- get_string (c_last_modified record) ;;
  target_id <- get_string (c_target_id record) ;;
  target_name <- get_string (c_target_name record) ;;
  target_type <- get_string (c_target_type record) ;;
  progress_record <- select_progress rds_data session_id ;;
  total_metrics <- select_active_metric_count rds_data ;;
  answered_count <- get_long (c_answered_count progress_record) ;;
  completion_percentage <- completion answered_count total_metrics ;;
  recent_answers <- select_recent_answers rds_data session_id ;;
  pillar_records <- select_pillar_progress rds_data session_id ;;
  pillar_progress <- mapM pillar_progress_of pillar_records ;;
  Ok (SessionData
        {| si_id := session_id;
           si_status := status;
           si_started_at := started_at;
           si_completed_at := nullable_string (c_completed_at record);
           si_last_modified := last_modified;
           si_current_pillar_id :=
             nullable_string (c_current_pillar_id record) |}
        {| tg_id := target_id;
           tg_name := target_name;
           tg_type := target_type;
           tg_description := string_or (c_target_description record) "" |}
        (named_ref_of (c_pillar_id record) (c_pillar_name record))
        (named_ref_of (c_org_id record) (c_org_name record))
        {| pr_total_metrics := total_metrics;
           pr_answered_metrics := answered_count;
           pr_remaining_metrics := total_metrics - answered_count;
           pr_completion_percentage := completion_percentage;
           pr_first_answer_at :=
             nullable_string (c_first_answer progress_record);
           pr_last_answer_at :=
             nullable_string (c_last_answer progress_record) |}
        recent_answers
        pillar_progress).

(** The [try] block of [get_session_details]. *)
Definition session_details_try (rds_data : rds_client) (session_id : string)
  : exc session_context :=
  records <- select_session rds_data session_id ;;
  match records with
  | [] => Ok (SessionError ("Assessment session not found: " ++ session_id)
                           session_id)
  | record :: _ => session_details_of rds_data session_id record
  end.

Definition get_session_details (rds_data : rds_client) (session_id : string)
  : session_context :=
  match session_details_try rds_data session_id with
  | Ok session_data => session_data
  | Raise e => SessionError (str_exn e) session_id
  end.

Record parameter : Type := {
  p_name : string;
  p_type : string;
  p_value : string
}.

Record event : Type := {
  ev_actionGroup : option string;
  ev_apiPath : option string;
  ev_httpMethod : option string;
  ev_parameters : option (list parameter);
  ev_sessionAttributes : option (dict string);
  ev_promptSessionAttributes : option (dict string)
}.

Inductive body : Type :=
| BodyContext (c : session_context)
| BodyError (error message : string).

Record response : Type := {
  r_messageVersion : string;
  r_actionGroup : string;
  r_apiPath : string;
  r_httpMethod : string;
  r_httpStatusCode : Z;
  r_body : body;
  r_sessionAttributes : option (dict string);
  r_promptSessionAttributes : option (dict string)
}.

Definition getitem {A : Type} (key : string) (field : option A) : exc A :=
  match field with
  | Some v => Ok v
  | None => Raise (KeyError key)
  end.

Definition get_default {A : Type} (field : option A) (default : A) : A :=
  match field with
  | Some v => v
  | None => default
  end.

Fixpoint find_parameter (name : string) (parameters : list parameter)
  : option string :=
  match parameters with
  | [] => None
  | param :: rest =>
      if String.eqb (p_name param) name
      then Some (p_value param)
      else find_parameter name rest
  end.

(** The [try] block of [lambda_handler]. *)
Definition handle (rds_data : rds_client) (ev : event) : exc response :=
  let session_id :=
    find_parameter "sessionId" (get_default (ev_parameters ev) []) in
  match session_id with
  | None | Some "" => Raise (ValueError "sessionId parameter is required")
  | Some session_id =>
      let session_context := get_session_details rds_data session_id in
      actionGroup <- getitem "actionGroup" (ev_actionGroup ev) ;;
      apiPath <- getitem "apiPath" (ev_apiPath ev) ;;
      httpMethod <- getitem "httpMethod" (ev_httpMethod ev) ;;
      Ok {| r_messageVersion := "1.0";
            r_actionGroup := actionGroup;
            r_apiPath := apiPath;
            r_httpMethod := httpMethod;
            r_httpStatusCode := if has_error session_context then 404 else 200;
            r_body := BodyContext session_context;
            r_sessionAttributes :=
              Some (get_default (ev_sessionAttributes ev) []);
            r_promptSessionAttributes :=
              Some (get_default (ev_promptSessionAttributes ev) []) |}
  end.

Definition lambda_handler (rds_data : rds_client) (ev : event) : response :=
  match handle rds_data ev with
  | Ok response => response
  | Raise e =>
      {| r_messageVersion := "1.0";
         r_actionGroup := get_default (ev_actionGroup ev) "";
         r_apiPath := get_default (ev_apiPath ev) "";
         r_httpMethod := get_default (ev_httpMethod ev) "";
         r_httpStatusCode := 500;
         r_body := BodyError (str_exn e) "Failed to get assessment context";
         r_sessionAttributes := None;
         r_promptSessionAttributes := None |}
  end.

End GetAssessmentContext.

(** ** Notions used to state the properties *)

Module Notions.

(** The order INITIAL < MANAGED < DEFINED < OPTIMIZING of the levels. *)
Definition level_rank (level : string) : nat :=
  if String.eqb level "INITIAL" then 0
  else if String.eqb level "MANAGED" then 1
  else if String.eqb level "DEFINED" then 2
  else 3.

(** [keys] with [k] added at the end unless it is there. *)
Definition add_key (keys : list string) (k : string) : list string :=
  if existsb (String.eqb k) keys then keys else (keys ++ [k])%list.

(** The elements of a list in the order of their first appearance, each
    once. *)
Definition distinct (l : list string) : list string :=
  fold_left add_key l [].

(** The first row of a session that belongs to a pillar. *)
Definition first_of_pillar (pillar : string)
           (results : list CalculateScore.result_row)
  : option CalculateScore.result_row :=
  find (fun r => String.eqb (CalculateScore.pillar_id r) pillar) results.

(** Grouping by key, as a loop does it and as a query would. *)
Section GroupBy.
Context {A V : Type}.
Variables (key : A -> string) (init : A -> V) (step : A -> V -> V).

(** One turn of a grouping loop: store [init a] under [key a] unless the key
    is there, then change the value under [key a] in place by [step a]. *)
Definition upsert (d : dict V) (a : A) : dict V :=
  dict_update (key a) (step a)
    (if dict_contains (key a) d then d else dict_set (key a) (init a) d).

(** The items of a group, in their order. *)
Definition members (k : string) (items : list A) : list A :=
  filter (fun a => String.eqb (key a) k) items.

(** The entry of group [k]: the value its first item starts, changed by
    each of its items in turn. *)
Definition group_entry (items : list A) (k : string) : dict V :=
  match members k items with
  | [] => []
  | a0 :: _ => [ (k, fold_left (fun v a => step a v) (members k items)
                               (init a0)) ]
  end.

(** One entry for each key, in the order of first appearance. *)
Definition grouped (items : list A) : dict V :=
  flat_map (group_entry items) (distinct (map key items)).
End GroupBy.

(** The metric entry that the grouping loop appends for a row. *)
Definition entry_of (r : CalculateScore.result_row)
  : MaturityCalculator.metric_entry :=
  {| MaturityCalculator.me_id := CalculateScore.metric_id r;
     MaturityCalculator.me_name := CalculateScore.metric_name r;
     MaturityCalculator.me_score :=
       MaturityCalculator.calculate_metric_score
         (CalculateScore.value r) (CalculateScore.metric_level r);
     MaturityCalculator.me_weight := CalculateScore.metric_weight r |}.

(** The topics of the rows of one pillar: one per topic id, in the order
    of first appearance, named and weighted by the first row of the topic,
    holding the metrics of all its rows in their order. *)
Definition grouped_topics (rows : list CalculateScore.result_row)
  : dict CalculateScore.topic_entry :=
  flat_map
    (fun k =>
       match members CalculateScore.topic_id k rows with
       | [] => []
       | r0 :: _ =>
           [ (k, {| CalculateScore.te_id := CalculateScore.topic_id r0;
                    CalculateScore.te_name := CalculateScore.topic_name r0;
                    CalculateScore.te_weight := CalculateScore.topic_weight r0;
                    CalculateScore.te_metrics :=
                      map entry_of (members CalculateScore.topic_id k rows);
                    CalculateScore.te_score := None |}) ]
       end)
    (distinct (map CalculateScore.topic_id rows)).

(** The pillars of a session: one per pillar id, in the order of first
    appearance, named and weighted by the first row of the pillar, holding
    the topics of its rows. *)
Definition grouped_pillars (results : list CalculateScore.result_row)
  : dict CalculateScore.pillar_entry :=
  flat_map
    (fun k =>
       match members CalculateScore.pillar_id k results with
       | [] => []
       | r0 :: _ =>
           [ (k, {| CalculateScore.pe_id := CalculateScore.pillar_id r0;
                    CalculateScore.pe_name := CalculateScore.pillar_name r0;
                    CalculateScore.pe_weight := CalculateScore.pillar_weight r0;
                    CalculateScore.pe_topics :=
                      grouped_topics
                        (members CalculateScore.pillar_id k results) |}) ]
       end)
    (distinct (map CalculateScore.pillar_id results)).

(** The dict the grouping loop stores for a pillar that is not there yet. *)
Definition new_pillar (r : CalculateScore.result_row)
  : CalculateScore.pillar_entry :=
  {| CalculateScore.pe_id := CalculateScore.pillar_id r;
     CalculateScore.pe_name := CalculateScore.pillar_name r;
     CalculateScore.pe_weight := CalculateScore.pillar_weight r;
     CalculateScore.pe_topics := [] |}.

(** The dict the grouping loop stores for a topic that is not there yet. *)
Definition new_topic (r : CalculateScore.result_row)
  : CalculateScore.topic_entry :=
  {| CalculateScore.te_id := CalculateScore.topic_id r;
     CalculateScore.te_name := CalculateScore.topic_name r;
     CalculateScore.te_weight := CalculateScore.topic_weight r;
     CalculateScore.te_metrics := [];
     CalculateScore.te_score := None |}.

(** What the grouping loop does to the topic of a row. *)
Definition topic_step (r : CalculateScore.result_row)
           (t : CalculateScore.topic_entry) : CalculateScore.topic_entry :=
  CalculateScore.append_metric t (entry_of r).

(** What the grouping loop does to the pillar of a row. *)
Definition pillar_step (r : CalculateScore.result_row)
           (p : CalculateScore.pillar_entry) : CalculateScore.pillar_entry :=
  CalculateScore.set_topics p
    (upsert CalculateScore.topic_id new_topic topic_step
            (CalculateScore.pe_topics p) r).

(** The mean of a list of scores, 0.0 for the empty list. *)
Definition mean_or_zero (scores : list Q) : Q :=
  match scores with
  | [] => 0.0
  | _ => sum scores / inject_Z (Z.of_nat (List.length scores))
  end.

(** The weighted mean of (score, weight) pairs, 0.0 when there is no pair
    or the weights do not add up to more than zero. *)
Definition weighted_or_zero (pairs : list (Q * Q)) : Q :=
  match pairs with
  | [] => 0.0
  | _ =>
      if Qlt_bool 0 (sum (map snd pairs))
      then sum (map (fun p => fst p * snd p) pairs) / sum (map snd pairs)
      else 0.0
  end.

(** The score of a grouped topic, and its displayed row. *)
Definition topic_value (t : CalculateScore.topic_entry) : Q :=
  mean_or_zero (map MaturityCalculator.me_score (CalculateScore.te_metrics t)).

Definition topic_row_of (t : CalculateScore.topic_entry)
  : CalculateScore.topic_score_row :=
  {| CalculateScore.tsr_id := CalculateScore.te_id t;
     CalculateScore.tsr_name := CalculateScore.te_name t;
     CalculateScore.tsr_score := round (topic_value t) 2;
     CalculateScore.tsr_weight := CalculateScore.te_weight t;
     CalculateScore.tsr_metric_count :=
       List.length (CalculateScore.te_metrics t) |}.

(** The score of a grouped pillar, from the unrounded scores of its topics,
    and its displayed row. *)
Definition pillar_value (p : CalculateScore.pillar_entry) : Q :=
  weighted_or_zero
    (map (fun kt : string * CalculateScore.topic_entry =>
            (topic_value (snd kt), CalculateScore.te_weight (snd kt)))
         (CalculateScore.pe_topics p)).

Definition pillar_row_of (p : CalculateScore.pillar_entry)
  : MaturityCalculator.pillar_score_row :=
  {| MaturityCalculator.ps_id := CalculateScore.pe_id p;
     MaturityCalculator.ps_name := CalculateScore.pe_name p;
     MaturityCalculator.ps_score := round (pillar_value p) 2;
     MaturityCalculator.ps_weight := CalculateScore.pe_weight p;
     MaturityCalculator.ps_topic_count :=
       List.length (CalculateScore.pe_topics p) |}.

(** The displayed rows of a grouped session, and its overall score, from
    the displayed pillar rows. *)
Definition topic_rows_of (pillar_data : dict CalculateScore.pillar_entry)
  : list CalculateScore.topic_score_row :=
  flat_map (fun kp : string * CalculateScore.pillar_entry =>
              map (fun kt : string * CalculateScore.topic_entry =>
                     topic_row_of (snd kt))
                  (CalculateScore.pe_topics (snd kp)))
           pillar_data.

Definition pillar_rows_of (pillar_data : dict CalculateScore.pillar_entry)
  : list MaturityCalculator.pillar_score_row :=
  map (fun kp : string * CalculateScore.pillar_entry => pillar_row_of (snd kp))
      pillar_data.

Definition overall_value (rows : list MaturityCalculator.pillar_score_row)
  : Q :=
  weighted_or_zero
    (map (fun p => (MaturityCalculator.ps_score p,
                    MaturityCalculator.ps_weight p)) rows).

(** A topic and a pillar once the topic loop has assigned the scores. *)
Definition scored_topic (t : CalculateScore.topic_entry)
  : CalculateScore.topic_entry :=
  {| CalculateScore.te_id := CalculateScore.te_id t;
     CalculateScore.te_name := CalculateScore.te_name t;
     CalculateScore.te_weight := CalculateScore.te_weight t;
     CalculateScore.te_metrics := CalculateScore.te_metrics t;
     CalculateScore.te_score := Some (topic_value t) |}.

Definition scored_pillar (p : CalculateScore.pillar_entry)
  : CalculateScore.pillar_entry :=
  {| CalculateScore.pe_id := CalculateScore.pe_id p;
     CalculateScore.pe_name := CalculateScore.pe_name p;
     CalculateScore.pe_weight := CalculateScore.pe_weight p;
     CalculateScore.pe_topics :=
       map (fun kt : string * CalculateScore.topic_entry =>
              (fst kt, scored_topic (snd kt)))
           (CalculateScore.pe_topics p) |}.

End Notions.

(** ** Sample data for the session context *)

Module Samples.
Import GetAssessmentContext.

Definition text (s : string) : field :=
  {| stringValue := Some s; longValue := None; isNull := None |}.

Definition number (n : Z) : field :=
  {| stringValue := None; longValue := Some n; isNull := None |}.

(** A column that says [isNull: False] beside its value. *)
Definition present (s : string) : field :=
  {| stringValue := Some s; longValue := None; isNull := Some false |}.

Definition null : field :=
  {| stringValue := None; longValue := None; isNull := Some true |}.

(** A session in progress: no completion date, current pillar p1, an
    organization o1 sent without the [isNull] key. *)
Definition session_in_progress : session_record :=
  {| c_status := text "IN_PROGRESS";
     c_started_at := text "2024-01-01";
     c_completed_at := null;
     c_last_modified := text "2024-01-02";
     c_current_pillar_id := present "p1";
     c_target_id := text "t1";
     c_target_name := text "Payments";
     c_target_type := text "APPLICATION";
     c_target_description := null;
     c_pillar_id := present "p1";
     c_pillar_name := present "Security";
     c_org_id := text "o1";
     c_org_name := text "Acme" |}.

Definition progress_of (answered : Z) : progress_record :=
  {| c_answered_count := number answered;
     c_first_answer := present "2024-01-01";
     c_last_answer := present "2024-01-02" |}.

Definition pillar_counts (pillar : string) (answered total : Z)
  : pillar_progress_record :=
  {| c_pp_id := text pillar;
     c_pp_name := text ("pillar " ++ pillar);
     c_pp_answered := number answered;
     c_pp_total := number total |}.

(** A database with one session, [answered] answers out of [total] active
    metrics, and two pillars, the second without any active metric. *)
Definition context_rds (answered total : Z) : rds_client :=
  {| select_session := fun _ => Ok [ session_in_progress ];
     select_progress := fun _ => Ok (progress_of answered);
     select_active_metric_count := Ok total;
     select_recent_answers := fun _ => Ok [];
     select_pillar_progress :=
       fun _ => Ok [ pillar_counts "p1" answered total;
                     pillar_counts "p2" 0 0 ] |}.

(** A database without any session. *)
Definition no_sessions : rds_client :=
  {| select_session := fun _ => Ok [];
     select_progress := fun _ => Raise (ClientError "not reached");
     select_active_metric_count := Raise (ClientError "not reached");
     select_recent_answers := fun _ => Raise (ClientError "not reached");
     select_pillar_progress := fun _ => Raise (ClientError "not reached") |}.

Definition context_event (session : string) : event :=
  {| ev_actionGroup := Some "AssessmentContextActions";
     ev_apiPath := Some "/session/context";
     ev_httpMethod := Some "GET";
     ev_parameters :=
       Some [ {| p_name := "sessionId";
                 p_type := "string";
                 p_value := session |} ];
     ev_sessionAttributes := Some [];
     ev_promptSessionAttributes := Some [] |}.

(** A session over two pillars; the answers of the first are not
    contiguous. *)
Definition session_two_pillars : list CalculateScore.result_row :=
  [ Fixtures.answer "m1" 4.0 4 "t1" 2.0 "p1" 1.0;
    Fixtures.answer "m2" 3.0 3 "t2" 1.0 "p2" 3.0;
    Fixtures.answer "m3" 1.0 1 "t1" 2.0 "p1" 1.0;
    Fixtures.answer "m4" 2.0 2 "t3" 1.0 "p1" 1.0 ].

End Samples.

(** * Properties *)

Import MaturityCalculator.

(** ** Comparisons and sums *)

Lemma Qle_bool_reflect (x y : Q) : reflect (x <= y) (Qle_bool x y).
Proof.
  destruct (Qle_bool x y) eqn:E; constructor.
  - now apply Qle_bool_iff.
  - intros H. apply Qle_bool_iff in H. congruence.
Qed.

Lemma Qlt_bool_reflect (x y : Q) : reflect (x < y) (Qlt_bool x y).
Proof.
  unfold Qlt_bool.
  destruct (Qle_bool_reflect y x); constructor; lra.
Qed.

Lemma Qeq_bool_reflect (x y : Q) : reflect (x == y) (Qeq_bool x y).
Proof.
  destruct (Qeq_bool x y) eqn:E; constructor.
  - now apply Qeq_bool_iff.
  - now apply Qeq_bool_neq.
Qed.

(** Case analysis on every float comparison of the goal. *)
Ltac compare_floats :=
  repeat match goal with
         | |- context [Qle_bool ?a ?b] => destruct (Qle_bool_reflect a b)
         | |- context [Qlt_bool ?a ?b] => destruct (Qlt_bool_reflect a b)
         | |- context [Qeq_bool ?a ?b] => destruct (Qeq_bool_reflect a b)
         end.

Lemma truediv_nonzero (a b : Q) : ~ b == 0 -> truediv a b = Ok (a / b).
Proof.
  intros Hb. unfold truediv.
  destruct (Qeq_bool_reflect b 0); [contradiction | reflexivity].
Qed.

Lemma fold_left_Qplus_acc (l : list Q) (a : Q) :
  fold_left Qplus l a == a + fold_left Qplus l 0.
Proof.
  revert a. induction l as [| x l IH]; intros a; simpl.
  - lra.
  - rewrite (IH (a + x)), (IH (0 + x)). lra.
Qed.

(** The accumulating loop of [sum] adds up what [Σ] does. *)
Lemma sum_map_Sigma {A : Type} (f : A -> Q) (l : list A) :
  sum (map f l) == Spec.Sigma f l.
Proof.
  unfold sum. induction l as [| x l IH]; simpl.
  - reflexivity.
  - rewrite fold_left_Qplus_acc, IH. lra.
Qed.

Lemma Sigma_map {A B : Type} (g : A -> B) (f : B -> Q) (l : list A) :
  Spec.Sigma f (map g l) = Spec.Sigma (fun x => f (g x)) l.
Proof.
  induction l as [| x l IH]; simpl; [reflexivity | now rewrite IH].
Qed.

Lemma length_cons_nonzero {A : Type} (x : A) (l : list A) :
  ~ inject_Z (Z.of_nat (List.length (x :: l))) == 0.
Proof.
  unfold Qeq. simpl Qnum. simpl Qden. cbn [List.length]. lia.
Qed.

(** ** The maturity-level classifier *)

Ltac classify :=
  unfold get_maturity_level, MATURITY_LEVELS; cbn [first_level];
  compare_floats; cbn [andb]; try reflexivity; exfalso; lra.

(** C2: the classifier maps [0, 1.5) to INITIAL, [1.5, 2.5) to MANAGED,
    [2.5, 3.5) to DEFINED and [3.5, 5.0] to OPTIMIZING; the four cut-offs
    0.0, 1.5, 2.5 and 5.0 classify as INITIAL, MANAGED, DEFINED and
    OPTIMIZING, and every score of 5.0 or more is OPTIMIZING (the function
    is total, so no score makes it fail). *)
Theorem get_maturity_level_intervals (s : Q) :
  (0.0 <= s /\ s < 1.5 -> get_maturity_level s = "INITIAL") /\
  (1.5 <= s /\ s < 2.5 -> get_maturity_level s = "MANAGED") /\
  (2.5 <= s /\ s < 3.5 -> get_maturity_level s = "DEFINED") /\
  (3.5 <= s /\ s <= 5.0 -> get_maturity_level s = "OPTIMIZING") /\
  (5.0 <= s -> get_maturity_level s = "OPTIMIZING") /\
  get_maturity_level 0.0 = "INITIAL" /\
  get_maturity_level 1.5 = "MANAGED" /\
  get_maturity_level 2.5 = "DEFINED" /\
  get_maturity_level 5.0 = "OPTIMIZING".
Proof.
  repeat split; try reflexivity; intros H; try destruct H as [Hlo Hhi];
    classify.
Qed.

Lemma get_maturity_level_intervals_witness :
  get_maturity_level 1 = "INITIAL" /\
  get_maturity_level 2 = "MANAGED" /\
  get_maturity_level 3 = "DEFINED" /\
  get_maturity_level 4 = "OPTIMIZING" /\
  get_maturity_level 6 = "OPTIMIZING".
Proof.
  refine (conj _ (conj _ (conj _ (conj _ _)))).
  - destruct (get_maturity_level_intervals 1) as [H _].
    apply H. split; lra.
  - destruct (get_maturity_level_intervals 2) as (_ & H & _).
    apply H. split; lra.
  - destruct (get_maturity_level_intervals 3) as (_ & _ & H & _).
    apply H. split; lra.
  - destruct (get_maturity_level_intervals 4) as (_ & _ & _ & H & _).
    apply H. split; lra.
  - destruct (get_maturity_level_intervals 6) as (_ & _ & _ & _ & H & _).
    apply H. lra.
Defined.

(** C10: every score strictly below 0.0 matches no interval and falls to
    the final [return], so it classifies as OPTIMIZING. *)
Theorem get_maturity_level_negative (s : Q) :
  s < 0.0 -> get_maturity_level s = "OPTIMIZING".
Proof.
  intros H. classify.
Qed.

Lemma get_maturity_level_negative_witness :
  -1 < 0.0 /\ get_maturity_level (-1) = "OPTIMIZING".
Proof.
  assert (H : -1 < 0.0) by lra.
  split; [exact H | exact (get_maturity_level_negative (-1) H)].
Defined.

(** ** The topic aggregator *)

Lemma calculate_topic_score_cons (m : metric_entry) (ms : list metric_entry) :
  calculate_topic_score (m :: ms) =
  Ok (sum (map me_score (m :: ms)) /
      inject_Z (Z.of_nat (List.length (m :: ms)))).
Proof.
  unfold calculate_topic_score.
  apply truediv_nonzero, length_cons_nonzero.
Qed.


(** C6: for a topic with at least one answered metric the topic score is the
    unweighted arithmetic mean of its metric scores, two metric lists with
    the same scores get the same topic score whatever their weights are, and
    the aggregator returns 0.0 on the empty list. *)
Theorem calculate_topic_score_mean :
  (forall ms : list metric_entry,
      ms <> [] ->
      exists q, calculate_topic_score ms = Ok q /\
                q == Spec.arithmetic_mean (map me_score ms)) /\
  (forall ms ms' : list metric_entry,
      map me_score ms = map me_score ms' ->
      calculate_topic_score ms = calculate_topic_score ms') /\
  calculate_topic_score [] = Ok 0.0.
Proof.
  refine (conj _ (conj _ eq_refl)).
  - intros [| m ms] Hne; [congruence |].
    rewrite calculate_topic_score_cons. eexists. split; [reflexivity |].
    unfold Spec.arithmetic_mean.
    rewrite (sum_map_Sigma me_score), Sigma_map, length_map. reflexivity.
  - intros ms ms' Heq.
    assert (Hlen : List.length ms = List.length ms').
    { rewrite <- (length_map me_score ms), Heq. apply length_map. }
    destruct ms as [| m ms], ms' as [| m' ms']; try discriminate.
    + reflexivity.
    + rewrite !calculate_topic_score_cons, Heq, Hlen. reflexivity.
Qed.

Lemma calculate_topic_score_mean_witness :
  exists q,
    calculate_topic_score
      [ {| me_id := "a"; me_name := "A"; me_score := 4; me_weight := 9 |};
        {| me_id := "b"; me_name := "B"; me_score := 1; me_weight := 1 |} ]
    = Ok q /\ q == 2.5.
Proof.
  destruct calculate_topic_score_mean as [Hmean _].
  destruct (Hmean
              [ {| me_id := "a"; me_name := "A"; me_score := 4; me_weight := 9 |};
                {| me_id := "b"; me_name := "B"; me_score := 1; me_weight := 1 |} ])
    as (q & Hq & Hval).
  - discriminate.
  - exists q. split; [exact Hq |].
    rewrite Hval. reflexivity.
Defined.

(** ** The pillar aggregator *)

Lemma weighted_mean_guard (weighted_sum total_weight : Q) :
  (if Qlt_bool 0 total_weight
   then truediv weighted_sum total_weight
   else Ok 0.0)
  = if Qlt_bool 0 total_weight then Ok (weighted_sum / total_weight)
    else Ok 0.0.
Proof.
  destruct (Qlt_bool_reflect 0 total_weight) as [Hpos | Hneg];
    [| reflexivity].
  apply truediv_nonzero. lra.
Qed.

Lemma calculate_pillar_score_cons (t : topic_sw) (ts : list topic_sw) :
  calculate_pillar_score (t :: ts) =
  let weighted_sum := sum (map (fun t => ts_score t * ts_weight t) (t :: ts)) in
  let total_weight := sum (map ts_weight (t :: ts)) in
  if Qlt_bool 0 total_weight then Ok (weighted_sum / total_weight)
  else Ok 0.0.
Proof.
  unfold calculate_pillar_score. cbv zeta. apply weighted_mean_guard.
Qed.




(** ** The scoring pipeline never raises in its aggregation steps *)

Import CalculateScore.

Lemma mapM_total {A B : Type} (f : A -> exc B) (P : B -> Prop) (l : list A) :
  (forall x, In x l -> exists y, f x = Ok y /\ P y) ->
  exists ys, mapM f l = Ok ys /\ Forall P ys.
Proof.
  induction l as [| x l IH]; intros Hf.
  - exists []. split; [reflexivity | constructor].
  - destruct (Hf x (or_introl eq_refl)) as (y & Hy & HP).
    destruct IH as (ys & Hys & HPs).
    { intros x' Hin. apply Hf. now right. }
    exists (y :: ys). cbn [mapM]. rewrite Hy. cbn [bind]. rewrite Hys.
    split; [reflexivity | now constructor].
Qed.

Lemma Forall_map_iff {A B : Type} (g : A -> B) (P : B -> Prop) (l : list A) :
  Forall (fun x => P (g x)) l -> Forall P (map g l).
Proof.
  induction 1; simpl; constructor; assumption.
Qed.






Lemma calculate_overall_score_cons
      (p : pillar_score_row) (ps : list pillar_score_row) :
  calculate_overall_score (p :: ps) =
  let weighted_sum := sum (map (fun p => ps_score p * ps_weight p) (p :: ps)) in
  let total_weight := sum (map ps_weight (p :: ps)) in
  if Qlt_bool 0 total_weight then Ok (weighted_sum / total_weight)
  else Ok 0.0.
Proof.
  unfold calculate_overall_score. cbv zeta. apply weighted_mean_guard.
Qed.


Lemma completion_total (answered_metrics total_metrics : Z) :
  completion answered_metrics total_metrics =
  Ok (if (0 <? total_metrics)%Z
      then PFloat (inject_Z answered_metrics / inject_Z total_metrics * 100)
      else PInt 0).
Proof.
  unfold completion. rewrite Z.gtb_ltb.
  destruct (Z.ltb_spec 0 total_metrics) as [Hpos | Hneg]; [| reflexivity].
  rewrite truediv_nonzero; [reflexivity |].
  unfold Qeq. simpl. lia.
Qed.


(** ** The report of a session *)

Import Fixtures.

(** C8: when the loaded answer set of a session is empty the first [return]
    is taken: overall score 0.0, level INITIAL, no pillar and no topic
    scores.  No aggregation and no further statement is run, whatever the
    database would answer to it. *)
Theorem calculate_scores_empty (rds_data : rds_client) (sid : string) :
  get_assessment_results rds_data sid = [] ->
  calculate_scores rds_data sid =
  Ok {| session_id := sid;
        overall_score := 0.0;
        maturity_level := "INITIAL";
        pillar_scores := [];
        topic_scores := [];
        metric_scores := Some [];
        statistics := [ ("total_metrics", PInt 0);
                        ("answered_metrics", PInt 0);
                        ("completion_percentage", PFloat 0.0) ];
        calculation_timestamp := None;
        algorithm_version := None |}.
Proof.
  intros Hempty. unfold calculate_scores. now rewrite Hempty.
Qed.

Lemma calculate_scores_empty_witness :
  exists report,
    calculate_scores (rds_of [] (Raise (ClientError "count unavailable"))) "s0"
    = Ok report /\
    overall_score report = 0.0 /\
    maturity_level report = "INITIAL" /\
    pillar_scores report = [] /\
    topic_scores report = [].
Proof.
  eexists. split.
  - apply (calculate_scores_empty
             (rds_of [] (Raise (ClientError "count unavailable"))) "s0").
    reflexivity.
  - cbn. auto.
Defined.





(** ** Metric scores *)

(** C1: the scorer returns the declared level of the metric and never reads
    the recorded answer.  For an answer of value 3.0 to a metric of declared
    level 1 the metric score is 1, not 3.0, and so are the topic, pillar and
    overall scores of a session that holds this single answer. *)
Theorem metric_score_is_declared_level :
  (forall (metric_value : Q) (metric_level : Z),
      calculate_metric_score metric_value metric_level = inject_Z metric_level) /\
  calculate_metric_score 3.0 1 == 1 /\
  ~ calculate_metric_score 3.0 1 == 3.0 /\
  (exists report,
      calculate_scores (rds_of session_level_vs_value (Ok 20%Z)) "s1"
      = Ok report /\
      Forall (fun row => tsr_score row == 1) (topic_scores report) /\
      Forall (fun row => ps_score row == 1) (pillar_scores report) /\
      overall_score report == 1 /\
      ~ overall_score report == 3.0).
Proof.
  refine (conj (fun _ _ => eq_refl) (conj _ (conj _ _))).
  - reflexivity.
  - intros H. discriminate H.
  - eexists. split; [vm_compute; reflexivity |].
    cbn [topic_scores pillar_scores overall_score].
    repeat split; try (repeat constructor; reflexivity).
    intros H. discriminate H.
Qed.

(** ** The overall score *)

(** C3: the pillar loop stores the pillar score rounded to 2 decimals in
    the displayed row, and the overall aggregator is fed these rows.  With
    one pillar whose topics score 4 and 3 under weights 499 and 501 the
    pillar score is 3.499; the overall score is computed from its rounded
    value 3.5 and classified OPTIMIZING, where the weighted mean of the
    unrounded pillar score, 3.499, is DEFINED. *)
Theorem overall_score_from_rounded_pillar_scores :
  (exists report,
      calculate_scores (rds_of session_near_cutoff (Ok 20%Z)) "s1" = Ok report /\
      Forall (fun row => ps_score row == 3.5) (pillar_scores report) /\
      (exists overall,
          calculate_overall_score (pillar_scores report) = Ok overall /\
          overall == 3.5 /\
          maturity_level report = get_maturity_level overall) /\
      overall_score report == 3.5 /\
      maturity_level report = "OPTIMIZING") /\
  (exists pillar_score,
      calculate_pillar_score [ {| ts_score := 4; ts_weight := 499.0 |};
                               {| ts_score := 3; ts_weight := 501.0 |} ]
      = Ok pillar_score /\
      pillar_score == 3.499 /\
      Spec.weighted_mean [ (pillar_score, 1.0) ] == 3.499 /\
      get_maturity_level (Spec.weighted_mean [ (pillar_score, 1.0) ])
      = "DEFINED").
Proof.
  split.
  - eexists. split; [vm_compute; reflexivity |].
    cbn [pillar_scores overall_score maturity_level].
    refine (conj _ (conj _ (conj _ eq_refl))).
    + repeat constructor; reflexivity.
    + eexists. split; [vm_compute; reflexivity |]. split; reflexivity.
    + reflexivity.
  - eexists. split; [vm_compute; reflexivity |].
    repeat split.
Qed.

(** ** What-if answers *)

Lemma find_parameter_skip
      (name : string) (extra : parameter) (before after : list parameter) :
  p_name extra <> name ->
  find_parameter name (before ++ extra :: after)%list =
  find_parameter name (before ++ after)%list.
Proof.
  intros Hname. induction before as [| p before IH]; cbn.
  - now apply String.eqb_neq in Hname as ->.
  - now rewrite IH.
Qed.

(** C5: the handler reads the parameter [sessionId] and nothing else, and
    [calculate_scores] has no argument for overrides.  An [answers]
    parameter, whatever overrides it lists and wherever it stands among the
    parameters, leaves the whole response as it is without it: the
    overrides are not evaluated in place of the persisted answers.  For the
    session that holds an answer to metric m1 of declared level 1, a request
    that overrides m1 with 5 is answered with the persisted overall
    score 1. *)
Theorem answers_parameter_is_ignored :
  (forall (rds_data : rds_client) (answers : string)
          (before after : list parameter)
          (actionGroup apiPath httpMethod : option string)
          (sessionAttributes promptSessionAttributes : option (dict string)),
      lambda_handler rds_data
        {| ev_actionGroup := actionGroup;
           ev_apiPath := apiPath;
           ev_httpMethod := httpMethod;
           ev_parameters :=
             Some (before ++ answers_parameter answers :: after)%list;
           ev_sessionAttributes := sessionAttributes;
           ev_promptSessionAttributes := promptSessionAttributes |}
      = lambda_handler rds_data
          {| ev_actionGroup := actionGroup;
             ev_apiPath := apiPath;
             ev_httpMethod := httpMethod;
             ev_parameters := Some (before ++ after)%list;
             ev_sessionAttributes := sessionAttributes;
             ev_promptSessionAttributes := promptSessionAttributes |}) /\
  (exists report,
      r_body (lambda_handler
                (rds_of session_level_vs_value (Ok 20%Z))
                (sample_event [ session_parameter "s1";
                                answers_parameter "[{metricId: m1, value: 5}]" ]))
      = BodyResult report /\
      r_body (lambda_handler
                (rds_of session_level_vs_value (Ok 20%Z))
                (sample_event [ session_parameter "s1" ]))
      = BodyResult report /\
      overall_score report == 1).
Proof.
  split.
  - intros. unfold lambda_handler, handle.
    cbn [ev_parameters get_default ev_actionGroup ev_apiPath ev_httpMethod
         ev_sessionAttributes ev_promptSessionAttributes].
    rewrite find_parameter_skip; [reflexivity | discriminate].
  - eexists. split; [vm_compute; reflexivity |].
    split; [vm_compute; reflexivity | reflexivity].
Qed.

(** ** Metric details *)

(** C9: when the metric statement finds no active metric with the requested
    id, [get_metric_details] returns the error variant, with the message
    "Metric not found" and the requested id in it and the requested id in
    its [metric_id] field; it does not raise.  The handler, for a non-empty
    id in a well-formed event, answers with status 404 and that variant as
    the body. *)
Theorem get_metric_details_not_found
        (rds_data : GetMetricDetails.rds_client) (metric_id : string) :
  GetMetricDetails.select_metric rds_data metric_id = Ok [] ->
  GetMetricDetails.get_metric_details rds_data metric_id
  = GetMetricDetails.MetricError ("Metric not found: " ++ metric_id) metric_id /\
  (metric_id <> "" ->
   forall (parameters : list GetMetricDetails.parameter)
          (actionGroup apiPath httpMethod : string)
          (sessionAttributes promptSessionAttributes : option (dict string)),
     GetMetricDetails.find_parameter "metricId" parameters = Some metric_id ->
     let response :=
       GetMetricDetails.lambda_handler rds_data
         {| GetMetricDetails.ev_actionGroup := Some actionGroup;
            GetMetricDetails.ev_apiPath := Some apiPath;
            GetMetricDetails.ev_httpMethod := Some httpMethod;
            GetMetricDetails.ev_parameters := Some parameters;
            GetMetricDetails.ev_sessionAttributes := sessionAttributes;
            GetMetricDetails.ev_promptSessionAttributes :=
              promptSessionAttributes |} in
     GetMetricDetails.r_httpStatusCode response = 404%Z /\
     GetMetricDetails.r_body response
     = GetMetricDetails.BodyData
         (GetMetricDetails.MetricError ("Metric not found: " ++ metric_id)
                                       metric_id)).
Proof.
  intros Hnone.
  assert (Hdetails :
            GetMetricDetails.get_metric_details rds_data metric_id
            = GetMetricDetails.MetricError ("Metric not found: " ++ metric_id)
                                           metric_id).
  { unfold GetMetricDetails.get_metric_details. now rewrite Hnone. }
  split; [exact Hdetails |].
  intros Hid parameters actionGroup apiPath httpMethod sa psa Hparam.
  unfold GetMetricDetails.lambda_handler, GetMetricDetails.handle.
  cbn [GetMetricDetails.ev_parameters GetMetricDetails.get_default].
  rewrite Hparam.
  destruct metric_id as [| c rest]; [congruence |].
  rewrite Hdetails. cbn. split; reflexivity.
Qed.

Lemma get_metric_details_not_found_witness :
  GetMetricDetails.get_metric_details no_metrics "unknown-metric"
  = GetMetricDetails.MetricError "Metric not found: unknown-metric"
                                 "unknown-metric" /\
  GetMetricDetails.r_httpStatusCode
    (GetMetricDetails.lambda_handler no_metrics (metric_event "unknown-metric"))
  = 404%Z.
Proof.
  destruct (get_metric_details_not_found no_metrics "unknown-metric" eq_refl)
    as (Hdetails & Hhandler).
  split; [exact Hdetails |].
  assert (Hid : "unknown-metric" <> "") by discriminate.
  exact (proj1 (Hhandler Hid
                  [ {| GetMetricDetails.p_name := "metricId";
                       GetMetricDetails.p_type := "string";
                       GetMetricDetails.p_value := "unknown-metric" |} ]
                  "AssessmentContextActions" "/metric/details" "GET"
                  (Some []) (Some []) eq_refl)).
Defined.

(** * Further properties of the code *)

(** ** Aggregators: bounds and guard *)

Lemma Sigma_weighted_bounds {A : Type} (score weight : A -> Q)
      (l : list A) (lo hi : Q) :
  Forall (fun x => 0 <= weight x /\ lo <= score x /\ score x <= hi) l ->
  0 <= Spec.Sigma weight l /\
  lo * Spec.Sigma weight l <= Spec.Sigma (fun x => score x * weight x) l /\
  Spec.Sigma (fun x => score x * weight x) l <= hi * Spec.Sigma weight l.
Proof.
  induction 1 as [| x l (Hw & Hlo & Hhi) _ (IHw & IHlo & IHhi)]; simpl.
  - lra.
  - assert (lo * weight x <= score x * weight x)
      by (apply Qmult_le_compat_r; assumption).
    assert (score x * weight x <= hi * weight x)
      by (apply Qmult_le_compat_r; assumption).
    lra.
Qed.

Lemma weighted_quotient_bounds (weighted_sum total_weight lo hi : Q) :
  0 < total_weight ->
  lo * total_weight <= weighted_sum ->
  weighted_sum <= hi * total_weight ->
  lo <= weighted_sum / total_weight /\ weighted_sum / total_weight <= hi.
Proof.
  intros Hpos Hlo Hhi. split.
  - apply Qle_shift_div_l; assumption.
  - apply Qle_shift_div_r; assumption.
Qed.

Lemma Sigma_count {A : Type} (l : list A) :
  Spec.Sigma (fun _ => 1) l == inject_Z (Z.of_nat (List.length l)).
Proof.
  induction l as [| x l IH]; [reflexivity |].
  cbn [Spec.Sigma fold_right List.length].
  unfold Spec.Sigma in IH. rewrite IH, Nat2Z.inj_succ, <- Z.add_1_l.
  rewrite inject_Z_plus. reflexivity.
Qed.

Lemma Sigma_ext {A : Type} (f g : A -> Q) (l : list A) :
  (forall x, f x == g x) -> Spec.Sigma f l == Spec.Sigma g l.
Proof.
  intros Hfg. induction l as [| x l IH]; simpl; [reflexivity |].
  unfold Spec.Sigma in IH. rewrite IH, Hfg. reflexivity.
Qed.

Lemma topic_score_within (ms : list metric_entry) (lo hi : Q) :
  Forall (fun m => lo <= me_score m /\ me_score m <= hi) ms ->
  exists q,
    calculate_topic_score ms = Ok q /\
    (ms <> [] \/ (lo <= 0 /\ 0 <= hi) -> lo <= q /\ q <= hi).
Proof.
  intros Hall. destruct ms as [| m ms].
  - exists 0.0. split; [reflexivity |].
    intros [Hne | Hzero]; [congruence | lra].
  - rewrite calculate_topic_score_cons. eexists. split; [reflexivity |].
    intros _.
    destruct (Sigma_weighted_bounds me_score (fun _ => 1) (m :: ms) lo hi)
      as (_ & Hlo & Hhi).
    { eapply Forall_impl; [| exact Hall]. cbn. intros a [? ?].
      repeat split; lra. }
    rewrite (Sigma_ext (fun x => me_score x * 1) me_score) in Hlo, Hhi
      by (intros; ring).
    rewrite Sigma_count in Hlo, Hhi.
    rewrite (sum_map_Sigma me_score).
    apply weighted_quotient_bounds; try assumption.
    rewrite <- Sigma_count. simpl.
    pose proof (Sigma_count ms) as Hc. unfold Spec.Sigma in Hc. rewrite Hc.
    assert (0 <= inject_Z (Z.of_nat (List.length ms))).
    { unfold Qle. simpl. lia. }
    lra.
Qed.

(** X1: the topic score of a non-empty topic lies between the least and the
    greatest of its metric scores: within any bounds that hold for all of
    them. *)
Theorem calculate_topic_score_bounds
        (ms : list metric_entry) (lo hi : Q) :
  ms <> [] ->
  Forall (fun m => lo <= me_score m /\ me_score m <= hi) ms ->
  exists q, calculate_topic_score ms = Ok q /\ lo <= q /\ q <= hi.
Proof.
  intros Hne Hall.
  destruct (topic_score_within ms lo hi Hall) as (q & Hq & Hbounds).
  exists q. split; [exact Hq |]. apply Hbounds. now left.
Qed.

Lemma calculate_topic_score_bounds_witness :
  exists q,
    calculate_topic_score
      [ {| me_id := "a"; me_name := "A"; me_score := 2; me_weight := 1 |};
        {| me_id := "b"; me_name := "B"; me_score := 5; me_weight := 1 |} ]
    = Ok q /\ 2 <= q /\ q <= 5.
Proof.
  apply (calculate_topic_score_bounds
           [ {| me_id := "a"; me_name := "A"; me_score := 2; me_weight := 1 |};
             {| me_id := "b"; me_name := "B"; me_score := 5; me_weight := 1 |} ]
           2 5).
  - discriminate.
  - repeat constructor; cbn; lra.
Defined.

Lemma pillar_score_within (ts : list topic_sw) (lo hi : Q) :
  Forall (fun t => 0 <= ts_weight t /\ lo <= ts_score t /\ ts_score t <= hi)
         ts ->
  exists q,
    calculate_pillar_score ts = Ok q /\
    (0 < Spec.Sigma ts_weight ts \/ (lo <= 0 /\ 0 <= hi) ->
     lo <= q /\ q <= hi).
Proof.
  intros Hall. destruct ts as [| t ts].
  - exists 0.0. split; [reflexivity |].
    intros [Hpos | Hzero]; [simpl in Hpos; lra | lra].
  - rewrite calculate_pillar_score_cons. cbv zeta.
    pose proof (sum_map_Sigma ts_weight (t :: ts)) as Hw.
    pose proof (sum_map_Sigma (fun t => ts_score t * ts_weight t) (t :: ts))
      as Hs.
    destruct (Sigma_weighted_bounds ts_score ts_weight (t :: ts) lo hi Hall)
      as (Hnonneg & Hlo & Hhi).
    destruct (Qlt_bool_reflect 0 (sum (map ts_weight (t :: ts))))
      as [Hpos | Hneg]; eexists; (split; [reflexivity |]).
    + intros _. rewrite Hs, Hw. apply weighted_quotient_bounds; lra.
    + intros [Hpos | Hzero]; lra.
Qed.





Lemma calculate_overall_score_bounds
      (ps : list pillar_score_row) (lo hi : Q) :
  Forall (fun p => 0 <= ps_weight p /\ lo <= ps_score p /\ ps_score p <= hi)
         ps ->
  lo <= 0 -> 0 <= hi ->
  exists q, calculate_overall_score ps = Ok q /\ lo <= q /\ q <= hi.
Proof.
  intros Hall Hlo0 Hhi0. destruct ps as [| p ps].
  - exists 0.0. split; [reflexivity | lra].
  - rewrite calculate_overall_score_cons. cbv zeta.
    pose proof (sum_map_Sigma ps_weight (p :: ps)) as Hw.
    pose proof (sum_map_Sigma (fun p => ps_score p * ps_weight p) (p :: ps))
      as Hs.
    destruct (Sigma_weighted_bounds ps_score ps_weight (p :: ps) lo hi Hall)
      as (Hnonneg & Hlo & Hhi).
    destruct (Qlt_bool_reflect 0 (sum (map ps_weight (p :: ps))))
      as [Hpos | Hneg]; eexists; (split; [reflexivity |]).
    + rewrite Hs, Hw. apply weighted_quotient_bounds; lra.
    + lra.
Qed.

(** ** The classifier: range and order *)

Import Notions.

Lemma level_rank_cases (s : Q) :
  0 <= s ->
  (level_rank (get_maturity_level s) = 0%nat /\ s < 1.5) \/
  (level_rank (get_maturity_level s) = 1%nat /\ 1.5 <= s /\ s < 2.5) \/
  (level_rank (get_maturity_level s) = 2%nat /\ 2.5 <= s /\ s < 3.5) \/
  (level_rank (get_maturity_level s) = 3%nat /\ 3.5 <= s).
Proof.
  intros Hs.
  unfold get_maturity_level, MATURITY_LEVELS; cbn [first_level].
  compare_floats; cbn; try (exfalso; lra).
  all: first [ left; split; [reflexivity | lra]
             | right; left; split; [reflexivity | lra]
             | right; right; left; split; [reflexivity | lra]
             | right; right; right; split; [reflexivity | lra] ].
Qed.

(** X4: the classifier answers with one of the four levels, and on scores from
    0.0 upwards it is monotone: a higher score never gets a lower level. *)
Theorem get_maturity_level_monotone (s t : Q) :
  In (get_maturity_level s) [ "INITIAL"; "MANAGED"; "DEFINED"; "OPTIMIZING" ] /\
  (0 <= s -> s <= t ->
   (level_rank (get_maturity_level s) <= level_rank (get_maturity_level t))%nat).
Proof.
  split.
  - unfold get_maturity_level, MATURITY_LEVELS; cbn [first_level].
    compare_floats; cbn; auto 6.
  - intros Hs Hst.
    assert (Ht : 0 <= t) by lra.
    destruct (level_rank_cases s Hs) as [[-> ?] | [[-> ?] | [[-> ?] | [-> ?]]]];
      destruct (level_rank_cases t Ht)
        as [[-> ?] | [[-> ?] | [[-> ?] | [-> ?]]]];
      try lia; exfalso; lra.
Qed.

Lemma get_maturity_level_monotone_witness :
  (level_rank (get_maturity_level 1.4) <= level_rank (get_maturity_level 2.6))%nat.
Proof.
  apply (get_maturity_level_monotone 1.4 2.6); lra.
Defined.

(** ** Rounding *)

Lemma scale_positive (ndigits : nat) : (0 < 10 ^ Z.of_nat ndigits)%Z.
Proof. apply Z.pow_pos_nonneg; lia. Qed.

(** [round] picks the floor of the scaled value, or the next integer when
    the scaled value lies strictly above its floor. *)
Lemma round_cases (x : Q) (ndigits : nat) :
  let scale := (10 ^ Z.of_nat ndigits)%Z in
  let y := x * inject_Z scale in
  exists k : Z,
    round x ndigits = Qmake k (Z.to_pos scale) /\
    (k = Qfloor y \/ (k = (Qfloor y + 1)%Z /\ inject_Z (Qfloor y) < y)).
Proof.
  cbv zeta. unfold round.
  set (y := x * inject_Z (10 ^ Z.of_nat ndigits)).
  destruct (Qcompare_spec (y - inject_Z (Qfloor y)) (1 # 2)) as [Heq | Hlt | Hgt].
  - destruct (Z.even (Qfloor y)).
    + eexists. split; [reflexivity | now left].
    + eexists. split; [reflexivity | right]. split; [reflexivity | lra].
  - eexists. split; [reflexivity | now left].
  - eexists. split; [reflexivity | right]. split; [reflexivity | lra].
Qed.

Lemma Qmake_scale (k : Z) (ndigits : nat) :
  Qmake k (Z.to_pos (10 ^ Z.of_nat ndigits))
  == inject_Z k / inject_Z (10 ^ Z.of_nat ndigits).
Proof.
  pose proof (scale_positive ndigits) as Hpos.
  rewrite Qmake_Qdiv. rewrite Z2Pos.id by assumption. reflexivity.
Qed.

(** Rounding does not leave an interval whose ends are integers. *)
Lemma round_between_integers (x : Q) (a b : Z) (ndigits : nat) :
  inject_Z a <= x -> x <= inject_Z b ->
  inject_Z a <= round x ndigits /\ round x ndigits <= inject_Z b.
Proof.
  intros Ha Hb.
  pose proof (scale_positive ndigits) as Hpos.
  destruct (round_cases x ndigits) as (k & -> & Hk). cbv zeta in Hk.
  set (scale := (10 ^ Z.of_nat ndigits)%Z) in *.
  set (y := x * inject_Z scale) in *.
  assert (Hscale : 0 < inject_Z scale) by (unfold Qlt; simpl; lia).
  assert (Hay : inject_Z (a * scale) <= y).
  { rewrite inject_Z_mult. unfold y. apply Qmult_le_compat_r; lra. }
  assert (Hyb : y <= inject_Z (b * scale)).
  { rewrite inject_Z_mult. unfold y. apply Qmult_le_compat_r; lra. }
  assert (Hlo : (a * scale <= Qfloor y)%Z).
  { rewrite <- (Qfloor_Z (a * scale)). now apply Qfloor_resp_le. }
  assert (Hhi : (Qfloor y <= b * scale)%Z).
  { rewrite <- (Qfloor_Z (b * scale)). now apply Qfloor_resp_le. }
  assert (Hk' : (a * scale <= k <= b * scale)%Z).
  { destruct Hk as [-> | [-> Hfrac]]; [lia |].
    assert (inject_Z (Qfloor y) < inject_Z (b * scale)) by lra.
    rewrite <- Zlt_Qlt in H. lia. }
  unfold scale. rewrite Qmake_scale. fold scale.
  split.
  - apply Qle_shift_div_l; [assumption |].
    rewrite <- inject_Z_mult, <- Zle_Qle. lia.
  - apply Qle_shift_div_r; [assumption |].
    rewrite <- inject_Z_mult, <- Zle_Qle. lia.
Qed.

(** ** Dictionaries *)

Local Open Scope list_scope.

Lemma dict_contains_keys {V : Type} (k : string) (d : dict V) :
  dict_contains k d = existsb (String.eqb k) (map fst d).
Proof.
  unfold dict_contains.
  induction d as [| [k' v] d IH]; cbn; [reflexivity |].
  destruct (String.eqb k k'); [reflexivity | exact IH].
Qed.

Lemma existsb_eqb_In (k : string) (ks : list string) :
  existsb (String.eqb k) ks = true <-> In k ks.
Proof.
  rewrite existsb_exists. split.
  - intros (k' & Hin & Heq). apply String.eqb_eq in Heq. now subst.
  - intros Hin. exists k. split; [assumption | apply String.eqb_refl].
Qed.

Lemma existsb_eqb_notin (k : string) (ks : list string) :
  ~ In k ks -> existsb (String.eqb k) ks = false.
Proof.
  intros Hnot. destruct (existsb (String.eqb k) ks) eqn:E; [| reflexivity].
  apply existsb_eqb_In in E. contradiction.
Qed.

Lemma dict_set_absent {V : Type} (k : string) (v : V) (d : dict V) :
  ~ In k (map fst d) -> dict_set k v d = (d ++ [(k, v)])%list.
Proof.
  induction d as [| [k' v'] d IH]; cbn; intros Hnot; [reflexivity |].
  destruct (String.eqb_spec k k') as [-> | Hne].
  - exfalso. apply Hnot. now left.
  - rewrite IH; [reflexivity |]. intros Hin. apply Hnot. now right.
Qed.

Lemma dict_update_absent {V : Type} (k : string) (f : V -> V) (d : dict V) :
  ~ In k (map fst d) -> dict_update k f d = d.
Proof.
  induction d as [| [k' v'] d IH]; cbn; intros Hnot; [reflexivity |].
  destruct (String.eqb_spec k k') as [-> | Hne].
  - exfalso. apply Hnot. now left.
  - rewrite IH; [reflexivity |]. intros Hin. apply Hnot. now right.
Qed.

Lemma dict_update_first {V : Type} (k : string) (f : V -> V) (v : V)
      (before after : dict V) :
  ~ In k (map fst before) ->
  dict_update k f (before ++ (k, v) :: after)
  = (before ++ (k, f v) :: after)%list.
Proof.
  induction before as [| [k' v'] before IH]; cbn; intros Hnot.
  - now rewrite String.eqb_refl.
  - destruct (String.eqb_spec k k') as [-> | Hne].
    + exfalso. apply Hnot. now left.
    + rewrite IH; [reflexivity |]. intros Hin. apply Hnot. now right.
Qed.

Lemma dict_update_compose {V : Type} (k : string) (f g : V -> V) (d : dict V) :
  dict_update k g (dict_update k f d) = dict_update k (fun v => g (f v)) d.
Proof.
  induction d as [| [k' v'] d IH]; cbn; [reflexivity |].
  destruct (String.eqb k k') eqn:E; cbn; rewrite E; [reflexivity |].
  now rewrite IH.
Qed.

Lemma dict_update_ext {V : Type} (k : string) (f g : V -> V) (d : dict V) :
  (forall v, f v = g v) -> dict_update k f d = dict_update k g d.
Proof.
  intros Hfg. induction d as [| [k' v'] d IH]; cbn; [reflexivity |].
  now rewrite Hfg, IH.
Qed.

Lemma dict_update_keys {V : Type} (k : string) (f : V -> V) (d : dict V) :
  map fst (dict_update k f d) = map fst d.
Proof.
  induction d as [| [k' v'] d IH]; cbn; [reflexivity |].
  destruct (String.eqb k k'); cbn; [reflexivity | now rewrite IH].
Qed.

(** ** Keys in the order of first appearance *)

Lemma distinct_snoc (l : list string) (k : string) :
  distinct (l ++ [k]) = add_key (distinct l) k.
Proof.
  unfold distinct. now rewrite fold_left_app.
Qed.

Lemma distinct_spec (l : list string) :
  NoDup (distinct l) /\ forall k, In k (distinct l) <-> In k l.
Proof.
  induction l as [| k l (IHnd & IHin)] using rev_ind.
  - split; [constructor | reflexivity].
  - rewrite distinct_snoc. unfold add_key.
    destruct (existsb (String.eqb k) (distinct l)) eqn:E.
    + apply existsb_eqb_In in E. split; [assumption |].
      intros k'. rewrite in_app_iff, IHin. cbn.
      apply IHin in E. intuition (subst; auto).
    + split.
      * apply NoDup_app; [assumption | repeat constructor; intros [] | ].
        intros k' Hin [<- | []].
        apply existsb_eqb_In in Hin. congruence.
      * intros k'. rewrite !in_app_iff, IHin. reflexivity.
Qed.

(** ** A grouping loop computes the groups *)

Section GroupByFacts.
Context {A V : Type}.
Variables (key : A -> string) (init : A -> V) (step : A -> V -> V).

Lemma members_snoc (k : string) (items : list A) (a : A) :
  members key k (items ++ [a])
  = members key k items ++ (if String.eqb (key a) k then [a] else []).
Proof.
  unfold members. rewrite filter_app. cbn.
  destruct (String.eqb (key a) k); reflexivity.
Qed.

Lemma members_empty (k : string) (items : list A) :
  ~ In k (map key items) -> members key k items = [].
Proof.
  unfold members. induction items as [| a items IH]; cbn; intros Hnot;
    [reflexivity |].
  destruct (String.eqb_spec (key a) k) as [Heq | Hne].
  - exfalso. apply Hnot. now left.
  - apply IH. intros Hin. apply Hnot. now right.
Qed.

Lemma members_nonempty (k : string) (items : list A) :
  In k (map key items) -> members key k items <> [].
Proof.
  unfold members. induction items as [| a items IH]; cbn; [intros [] |].
  intros [Heq | Hin].
  - apply String.eqb_eq in Heq. rewrite Heq. discriminate.
  - destruct (String.eqb (key a) k); [discriminate | now apply IH].
Qed.

Lemma group_entry_other (items : list A) (a : A) (k : string) :
  key a <> k ->
  group_entry key init step (items ++ [a]) k
  = group_entry key init step items k.
Proof.
  intros Hne. unfold group_entry. rewrite members_snoc.
  apply String.eqb_neq in Hne. rewrite Hne, app_nil_r. reflexivity.
Qed.

Lemma group_entry_old (items : list A) (a : A) :
  In (key a) (map key items) ->
  exists v,
    group_entry key init step items (key a) = [ (key a, v) ] /\
    group_entry key init step (items ++ [a]) (key a) = [ (key a, step a v) ].
Proof.
  intros Hin. unfold group_entry. rewrite members_snoc, String.eqb_refl.
  pose proof (members_nonempty _ _ Hin) as Hne.
  destruct (members key (key a) items) as [| a0 rest]; [congruence |].
  eexists. split; [reflexivity |].
  cbn. rewrite fold_left_app. reflexivity.
Qed.

Lemma group_entry_new (items : list A) (a : A) :
  ~ In (key a) (map key items) ->
  group_entry key init step (items ++ [a]) (key a)
  = [ (key a, step a (init a)) ].
Proof.
  intros Hnot. unfold group_entry.
  rewrite members_snoc, String.eqb_refl, (members_empty _ _ Hnot).
  reflexivity.
Qed.

Lemma grouped_keys (items : list A) (ks : list string) :
  (forall k, In k ks -> In k (map key items)) ->
  map fst (flat_map (group_entry key init step items) ks) = ks.
Proof.
  induction ks as [| k ks IH]; cbn; intros Hks; [reflexivity |].
  rewrite map_app, IH by (intros; apply Hks; now right).
  unfold group_entry.
  pose proof (members_nonempty k items (Hks k (or_introl eq_refl))) as Hne.
  destruct (members key k items); [congruence | reflexivity].
Qed.

Lemma grouped_other (items : list A) (a : A) (ks : list string) :
  ~ In (key a) ks ->
  flat_map (group_entry key init step (items ++ [a])) ks
  = flat_map (group_entry key init step items) ks.
Proof.
  induction ks as [| k ks IH]; cbn; intros Hnot; [reflexivity |].
  rewrite group_entry_other, IH; [reflexivity | |]; intuition.
Qed.

Lemma grouped_update (items : list A) (a : A) (ks : list string) :
  NoDup ks -> In (key a) ks ->
  (forall k, In k ks -> In k (map key items)) ->
  dict_update (key a) (step a) (flat_map (group_entry key init step items) ks)
  = flat_map (group_entry key init step (items ++ [a])) ks.
Proof.
  induction ks as [| k ks IH]; intros Hnd Hin Hks; [destruct Hin |].
  inversion Hnd as [| ? ? Hnotin Hnd']; subst. cbn [flat_map].
  destruct (String.eqb_spec (key a) k) as [Heq | Hne].
  - subst k.
    destruct (group_entry_old items a (Hks _ (or_introl eq_refl)))
      as (v & Hold & Hnew).
    rewrite Hold, Hnew, (grouped_other _ _ _ Hnotin).
    cbn. now rewrite String.eqb_refl.
  - destruct Hin as [Heq | Hin]; [congruence |].
    rewrite (group_entry_other items a k Hne).
    unfold group_entry at 1.
    pose proof (members_nonempty k items (Hks k (or_introl eq_refl))) as Hmem.
    destruct (members key k items) as [| a0 rest] eqn:Em; [congruence |].
    cbn. apply String.eqb_neq in Hne. rewrite Hne.
    unfold group_entry at 2. rewrite Em. cbn.
    f_equal. apply IH; [assumption | assumption |].
    intros k' Hk'. apply Hks. now right.
Qed.

Lemma fold_upsert_grouped (items : list A) :
  fold_left (upsert key init step) items [] = grouped key init step items.
Proof.
  induction items as [| a items IH] using rev_ind; [reflexivity |].
  rewrite fold_left_app. cbn [fold_left]. rewrite IH.
  unfold grouped, upsert. rewrite map_app. cbn [map]. rewrite distinct_snoc.
  destruct (distinct_spec (map key items)) as (Hnd & Hin).
  assert (Hks : forall k, In k (distinct (map key items)) ->
                          In k (map key items)) by (intros; now apply Hin).
  rewrite dict_contains_keys, (grouped_keys _ _ Hks). unfold add_key.
  destruct (existsb (String.eqb (key a)) (distinct (map key items))) eqn:E.
  - apply existsb_eqb_In in E. now apply grouped_update.
  - assert (Hnot : ~ In (key a) (distinct (map key items))).
    { intros H. apply existsb_eqb_In in H. congruence. }
    rewrite dict_set_absent by (now rewrite grouped_keys).
    rewrite dict_update_first by (now rewrite grouped_keys).
    rewrite flat_map_app, (grouped_other _ _ _ Hnot). cbn [flat_map].
    rewrite group_entry_new, app_nil_r; [reflexivity |].
    intros H. apply Hnot. now apply Hin.
Qed.

End GroupByFacts.

(** ** The grouping loop of [calculate_scores] *)

Lemma group_result_upsert (pillar_data : dict pillar_entry) (r : result_row) :
  group_result pillar_data r
  = upsert pillar_id new_pillar pillar_step pillar_data r.
Proof.
  unfold group_result, add_metric, init_topic, init_pillar, upsert.
  rewrite dict_update_compose. apply dict_update_ext. intros p.
  unfold pillar_step, upsert.
  destruct (dict_contains (topic_id r) (pe_topics p)); reflexivity.
Qed.

Lemma fold_left_ext {A B : Type} (f g : A -> B -> A) (l : list B) (a : A) :
  (forall x y, f x y = g x y) -> fold_left f l a = fold_left g l a.
Proof.
  intros Hfg. revert a. induction l as [| y l IH]; intros a; cbn;
    [reflexivity |].
  now rewrite Hfg, IH.
Qed.

Lemma fold_topic_step (rows : list result_row) (t : topic_entry) :
  fold_left (fun t r => topic_step r t) rows t
  = {| te_id := te_id t;
       te_name := te_name t;
       te_weight := te_weight t;
       te_metrics := te_metrics t ++ map entry_of rows;
       te_score := te_score t |}.
Proof.
  revert t. induction rows as [| r rows IH]; intros [i n w ms s]; cbn.
  - now rewrite app_nil_r.
  - rewrite IH. cbn. now rewrite <- app_assoc.
Qed.

Lemma fold_pillar_step (rows : list result_row) (p : pillar_entry) :
  fold_left (fun p r => pillar_step r p) rows p
  = set_topics p (fold_left (upsert topic_id new_topic topic_step) rows
                            (pe_topics p)).
Proof.
  revert p. induction rows as [| r rows IH]; intros [i n w ts]; cbn;
    [reflexivity |].
  rewrite IH. reflexivity.
Qed.

Lemma flat_map_ext_all {A B : Type} (f g : A -> list B) (l : list A) :
  (forall x, f x = g x) -> flat_map f l = flat_map g l.
Proof.
  intros Hfg. induction l as [| x l IH]; cbn; [reflexivity |].
  now rewrite Hfg, IH.
Qed.

Lemma grouped_topics_loop (rows : list result_row) :
  fold_left (upsert topic_id new_topic topic_step) rows [] = grouped_topics rows.
Proof.
  rewrite fold_upsert_grouped. unfold grouped, grouped_topics.
  apply flat_map_ext_all. intros k. unfold group_entry.
  destruct (members topic_id k rows) as [| r0 rest] eqn:Em; [reflexivity |].
  rewrite fold_topic_step. reflexivity.
Qed.

Lemma group_results_loop (results : list result_row) :
  group_results results = grouped_pillars results.
Proof.
  unfold group_results.
  rewrite (fold_left_ext _ (upsert pillar_id new_pillar pillar_step))
    by apply group_result_upsert.
  rewrite fold_upsert_grouped. unfold grouped, grouped_pillars.
  apply flat_map_ext_all. intros k. unfold group_entry.
  destruct (members pillar_id k results) as [| r0 rest] eqn:Em;
    [reflexivity |].
  rewrite fold_pillar_step. cbn [new_pillar pe_topics set_topics pe_id pe_name
                                 pe_weight].
  now rewrite grouped_topics_loop.
Qed.

(** X5: the grouping loop of [calculate_scores] builds one pillar per pillar id
    and, within it, one topic per topic id, each in the order of first
    appearance among the rows, named and weighted by its first row; a topic
    holds one metric per row of that pillar and topic, in the order of the
    rows. *)
Theorem group_results_grouped (results : list result_row) :
  group_results results = grouped_pillars results.
Proof.
  exact (group_results_loop results).
Qed.

(** ** The loops over topics and pillars *)

Lemma mapM_pure {A B : Type} (g : A -> B) (f : A -> exc B) (l : list A) :
  (forall x, f x = Ok (g x)) -> mapM f l = Ok (map g l).
Proof.
  intros Hf. induction l as [| x l IH]; cbn; [reflexivity |].
  now rewrite Hf, IH.
Qed.

Lemma calculate_topic_score_value (ms : list metric_entry) :
  calculate_topic_score ms = Ok (mean_or_zero (map me_score ms)).
Proof.
  destruct ms as [| m ms]; [reflexivity |].
  rewrite calculate_topic_score_cons. unfold mean_or_zero.
  cbn [map List.length]. now rewrite length_map.
Qed.

Lemma calculate_pillar_score_value (ts : list topic_sw) :
  calculate_pillar_score ts
  = Ok (weighted_or_zero (map (fun t => (ts_score t, ts_weight t)) ts)).
Proof.
  destruct ts as [| t ts]; [reflexivity |].
  rewrite calculate_pillar_score_cons. cbv zeta.
  unfold weighted_or_zero. cbn [map]. rewrite !map_map. cbn [fst snd].
  destruct (Qlt_bool _ _); reflexivity.
Qed.

Lemma calculate_overall_score_value (ps : list pillar_score_row) :
  calculate_overall_score ps = Ok (overall_value ps).
Proof.
  destruct ps as [| p ps]; [reflexivity |].
  rewrite calculate_overall_score_cons. cbv zeta.
  unfold overall_value, weighted_or_zero. cbn [map]. rewrite !map_map.
  cbn [fst snd].
  destruct (Qlt_bool _ _); reflexivity.
Qed.

Lemma mapM_map {A B C : Type} (h : A -> B) (f : B -> exc C) (l : list A) :
  mapM f (map h l) = mapM (fun x => f (h x)) l.
Proof.
  induction l as [| x l IH]; cbn; [reflexivity | now rewrite IH].
Qed.

Lemma score_topic_value (t : topic_entry) :
  score_topic t = Ok (topic_row_of t, scored_topic t).
Proof.
  unfold score_topic. rewrite calculate_topic_score_value. reflexivity.
Qed.

Lemma score_topics_of_value (p : pillar_entry) :
  score_topics_of p
  = Ok (map (fun kt : string * topic_entry => topic_row_of (snd kt))
            (pe_topics p),
        scored_pillar p).
Proof.
  unfold score_topics_of.
  rewrite (mapM_pure (fun kt : string * topic_entry =>
                        (topic_row_of (snd kt), (fst kt, scored_topic (snd kt)))))
    by (intros kt; now rewrite score_topic_value).
  cbn [bind]. unfold scored_pillar. rewrite !map_map. reflexivity.
Qed.

Lemma score_topics_value (pillar_data : dict pillar_entry) :
  score_topics pillar_data
  = Ok (topic_rows_of pillar_data,
        map (fun kp : string * pillar_entry => (fst kp, scored_pillar (snd kp)))
            pillar_data).
Proof.
  unfold score_topics.
  rewrite (mapM_pure
             (fun kp : string * pillar_entry =>
                (map (fun kt : string * topic_entry => topic_row_of (snd kt))
                     (pe_topics (snd kp)),
                 (fst kp, scored_pillar (snd kp)))))
    by (intros kp; now rewrite score_topics_of_value).
  cbn [bind]. unfold topic_rows_of.
  rewrite !map_map, flat_map_concat_map. reflexivity.
Qed.

Lemma score_pillar_value (p : pillar_entry) :
  score_pillar (scored_pillar p) = Ok (pillar_row_of p).
Proof.
  unfold score_pillar, dict_values. cbn [scored_pillar pe_topics].
  rewrite map_map, mapM_map. cbn [snd].
  rewrite (mapM_pure
             (fun kt : string * topic_entry =>
                {| ts_score := topic_value (snd kt);
                   ts_weight := te_weight (snd kt) |}))
    by reflexivity.
  cbn [bind]. rewrite calculate_pillar_score_value. cbn [bind].
  unfold pillar_row_of, pillar_value. cbn [pe_id pe_name pe_weight].
  now rewrite !map_map, length_map.
Qed.

Lemma score_pillars_value (pillar_data : dict pillar_entry) :
  score_pillars
    (map (fun kp : string * pillar_entry => (fst kp, scored_pillar (snd kp)))
         pillar_data)
  = Ok (pillar_rows_of pillar_data).
Proof.
  unfold score_pillars, dict_values, pillar_rows_of.
  rewrite map_map, mapM_map. cbn [snd].
  apply mapM_pure. intros kp. apply score_pillar_value.
Qed.

Lemma calculate_scores_report
        (rds_data : rds_client) (sid : string) (total_metrics : Z) :
  get_assessment_results rds_data sid <> [] ->
  select_active_metric_count rds_data = Ok total_metrics ->
  let results := get_assessment_results rds_data sid in
  let pillar_data := grouped_pillars results in
  let overall := overall_value (pillar_rows_of pillar_data) in
  let answered_metrics := Z.of_nat (List.length results) in
  calculate_scores rds_data sid
  = Ok {| session_id := sid;
          overall_score := round overall 2;
          maturity_level := get_maturity_level overall;
          pillar_scores := pillar_rows_of pillar_data;
          topic_scores := topic_rows_of pillar_data;
          metric_scores := None;
          statistics :=
            [ ("total_metrics", PInt total_metrics);
              ("answered_metrics", PInt answered_metrics);
              ("completion_percentage",
               if (0 <? total_metrics)%Z
               then PFloat (round (inject_Z answered_metrics /
                                   inject_Z total_metrics * 100) 1)
               else PInt 0) ];
          calculation_timestamp := Some "real-time";
          algorithm_version := Some "lambda-v1.0" |}.
Proof.
  intros Hne Hcount. cbv zeta. unfold calculate_scores.
  destruct (get_assessment_results rds_data sid) as [| r results] eqn:Hres;
    [congruence |].
  rewrite group_results_loop, score_topics_value. cbn [bind].
  rewrite score_pillars_value. cbn [bind].
  rewrite calculate_overall_score_value, Hcount. cbn [bind].
  rewrite completion_total. cbn [bind].
  destruct (0 <? total_metrics)%Z; reflexivity.
Qed.


(** ** Every answer is counted once *)

Lemma list_sum_cons (x : nat) (l : list nat) :
  list_sum (x :: l) = (x + list_sum l)%nat.
Proof. reflexivity. Qed.

Lemma filter_split_count {A : Type} (p q : A -> bool) (l : list A) :
  (forall a, p a = true -> q a = false) ->
  (List.length (filter p l) + List.length (filter q l))%nat
  = List.length (filter (fun a => p a || q a) l).
Proof.
  intros Hpq. induction l as [| a l IH]; [reflexivity |].
  cbn [filter]. destruct (p a) eqn:Ep; cbn [orb].
  - rewrite (Hpq a Ep). cbn [List.length]. lia.
  - destruct (q a); cbn [List.length]; lia.
Qed.

Lemma members_partition {A : Type} (key : A -> string) (l : list A)
      (ks : list string) :
  NoDup ks ->
  list_sum (map (fun k => List.length (members key k l)) ks)
  = List.length (filter (fun a => existsb (String.eqb (key a)) ks) l).
Proof.
  induction ks as [| k ks IH]; intros Hnd.
  - cbn. induction l as [| a l IHl]; [reflexivity | exact IHl].
  - inversion Hnd as [| ? ? Hnotin Hnd']; subst.
    cbn [map]. rewrite list_sum_cons, (IH Hnd'). clear IH.
    unfold members.
    apply (filter_split_count
             (fun a => String.eqb (key a) k)
             (fun a => existsb (String.eqb (key a)) ks)).
    intros a Ha. apply String.eqb_eq in Ha. rewrite Ha.
    now apply existsb_eqb_notin.
Qed.

Lemma members_count {A : Type} (key : A -> string) (l : list A) :
  list_sum (map (fun k => List.length (members key k l))
                (distinct (map key l)))
  = List.length l.
Proof.
  destruct (distinct_spec (map key l)) as (Hnd & Hin).
  rewrite (members_partition key l _ Hnd). f_equal.
  apply forallb_filter_id. apply forallb_forall. intros a Ha.
  apply existsb_eqb_In, Hin, in_map, Ha.
Qed.

Lemma grouped_topics_count (rows : list result_row) :
  list_sum (map (fun kt : string * topic_entry =>
                   List.length (te_metrics (snd kt)))
                (grouped_topics rows))
  = List.length rows.
Proof.
  rewrite <- (members_count topic_id rows).
  unfold grouped_topics.
  induction (distinct (map topic_id rows)) as [| k ks IH]; [reflexivity |].
  cbn [flat_map map]. rewrite list_sum_cons, map_app, list_sum_app, IH.
  f_equal.
  destruct (members topic_id k rows) as [| r0 rest] eqn:Em; [reflexivity |].
  cbn. rewrite length_map. lia.
Qed.

Lemma grouped_pillars_count (results : list result_row) :
  list_sum (map tsr_metric_count (topic_rows_of (grouped_pillars results)))
  = List.length results.
Proof.
  rewrite <- (members_count pillar_id results).
  unfold grouped_pillars, topic_rows_of.
  induction (distinct (map pillar_id results)) as [| k ks IH];
    [reflexivity |].
  cbn [flat_map map].
  rewrite list_sum_cons, flat_map_app, map_app, list_sum_app, IH.
  f_equal.
  destruct (members pillar_id k results) as [| r0 rest] eqn:Em;
    [reflexivity |].
  cbn [flat_map snd pe_topics]. rewrite app_nil_r, map_map.
  cbn [topic_row_of tsr_metric_count].
  apply grouped_topics_count.
Qed.

Lemma topic_rows_length (pillar_data : dict pillar_entry) :
  List.length (topic_rows_of pillar_data)
  = list_sum (map ps_topic_count (pillar_rows_of pillar_data)).
Proof.
  unfold topic_rows_of, pillar_rows_of.
  induction pillar_data as [| kp pd IH]; [reflexivity |].
  cbn [flat_map map]. rewrite list_sum_cons, length_app, length_map, IH.
  reflexivity.
Qed.

(** X7: in the report of a session with answers, every answer is counted in
    exactly one topic row and every topic row under exactly one pillar row:
    the metric counts of the topic rows add up to the number of loaded
    answers, which is [answered_metrics], and the topic counts of the pillar
    rows add up to the number of topic rows. *)
Theorem report_counts_add_up
        (rds_data : rds_client) (sid : string) (total_metrics : Z) :
  get_assessment_results rds_data sid <> [] ->
  select_active_metric_count rds_data = Ok total_metrics ->
  exists report,
    calculate_scores rds_data sid = Ok report /\
    list_sum (map tsr_metric_count (topic_scores report))
    = List.length (get_assessment_results rds_data sid) /\
    dict_get "answered_metrics" (statistics report)
    = Some (PInt (Z.of_nat
                    (list_sum (map tsr_metric_count (topic_scores report))))) /\
    list_sum (map ps_topic_count (pillar_scores report))
    = List.length (topic_scores report).
Proof.
  intros Hne Hcount.
  rewrite (calculate_scores_report rds_data sid total_metrics Hne Hcount).
  eexists. split; [reflexivity |].
  cbn [topic_scores pillar_scores statistics].
  rewrite grouped_pillars_count, topic_rows_length.
  repeat split.
Qed.

Lemma report_counts_add_up_witness :
  exists report,
    calculate_scores (rds_of Samples.session_two_pillars (Ok 7%Z)) "s1"
    = Ok report /\
    list_sum (map tsr_metric_count (topic_scores report)) = 4%nat /\
    list_sum (map ps_topic_count (pillar_scores report)) = 3%nat.
Proof.
  destruct (report_counts_add_up
              (rds_of Samples.session_two_pillars (Ok 7%Z)) "s1" 7)
    as (report & Hreport & Hmetrics & _ & Htopics).
  - discriminate.
  - reflexivity.
  - exists report. split; [exact Hreport |]. split; [exact Hmetrics |].
    rewrite Htopics. vm_compute in Hreport.
    injection Hreport as <-. reflexivity.
Defined.


(** ** The rows of the report carry the identity of their pillar *)

Lemma members_head {A : Type} (key : A -> string) (k : string)
      (items rest : list A) (a0 : A) :
  members key k items = a0 :: rest ->
  key a0 = k /\ find (fun a => String.eqb (key a) k) items = Some a0.
Proof.
  unfold members. induction items as [| a items IH]; cbn; [discriminate |].
  destruct (String.eqb_spec (key a) k) as [Heq | Hne].
  - intros [= <- _]. now split.
  - exact IH.
Qed.

Lemma grouped_pillars_ids (results : list result_row) :
  map ps_id (pillar_rows_of (grouped_pillars results))
  = distinct (map pillar_id results).
Proof.
  unfold grouped_pillars, pillar_rows_of.
  destruct (distinct_spec (map pillar_id results)) as (_ & Hin).
  assert (Hks : forall k, In k (distinct (map pillar_id results)) ->
                          In k (map pillar_id results))
    by (intros; now apply Hin).
  clear Hin. revert Hks.
  generalize (distinct (map pillar_id results)) as ks.
  induction ks as [| k ks IH]; intros Hks; [reflexivity |].
  cbn [flat_map]. rewrite !map_app, IH by (intros; apply Hks; now right).
  pose proof (members_nonempty pillar_id k results
                               (Hks k (or_introl eq_refl))) as Hne.
  destruct (members pillar_id k results) as [| r0 rest] eqn:Em;
    [congruence |].
  destruct (members_head _ _ _ _ _ Em) as (Hk & _).
  cbn. now rewrite Hk.
Qed.

Lemma grouped_pillars_first (results : list result_row) :
  Forall (fun row =>
            exists r,
              first_of_pillar (ps_id row) results = Some r /\
              ps_name row = pillar_name r /\
              ps_weight row = pillar_weight r)
         (pillar_rows_of (grouped_pillars results)).
Proof.
  unfold grouped_pillars, pillar_rows_of.
  induction (distinct (map pillar_id results)) as [| k ks IH];
    [constructor |].
  cbn [flat_map]. rewrite map_app. apply Forall_app. split; [| exact IH].
  destruct (members pillar_id k results) as [| r0 rest] eqn:Em;
    [constructor |].
  destruct (members_head _ _ _ _ _ Em) as (Hk & Hfind).
  repeat constructor. exists r0. cbn. rewrite Hk. now split.
Qed.

(** X8: in the report of a session with answers there is one pillar row for
    each pillar id among the answers, in the order in which the pillars
    first appear, and each row has the name and the weight that the first
    answer of that pillar carries. *)
Theorem report_pillar_identity
        (rds_data : rds_client) (sid : string) (total_metrics : Z) :
  get_assessment_results rds_data sid <> [] ->
  select_active_metric_count rds_data = Ok total_metrics ->
  exists report,
    calculate_scores rds_data sid = Ok report /\
    map ps_id (pillar_scores report)
    = distinct (map pillar_id (get_assessment_results rds_data sid)) /\
    NoDup (map ps_id (pillar_scores report)) /\
    Forall (fun row =>
              exists r,
                first_of_pillar (ps_id row)
                                (get_assessment_results rds_data sid) = Some r /\
                ps_name row = pillar_name r /\
                ps_weight row = pillar_weight r)
           (pillar_scores report).
Proof.
  intros Hne Hcount.
  rewrite (calculate_scores_report rds_data sid total_metrics Hne Hcount).
  eexists. split; [reflexivity |]. cbn [pillar_scores].
  rewrite grouped_pillars_ids.
  split; [reflexivity |]. split; [apply distinct_spec |].
  apply grouped_pillars_first.
Qed.

Lemma report_pillar_identity_witness :
  exists report,
    calculate_scores (rds_of Samples.session_two_pillars (Ok 7%Z)) "s1"
    = Ok report /\
    map ps_id (pillar_scores report) = [ "p1"; "p2" ].
Proof.
  destruct (report_pillar_identity
              (rds_of Samples.session_two_pillars (Ok 7%Z)) "s1" 7)
    as (report & Hreport & Hids & _).
  - discriminate.
  - reflexivity.
  - exists report. split; [exact Hreport | exact Hids].
Defined.

(** ** Scores stay on the scale of the metric levels *)

Lemma Forall_members {A : Type} (key : A -> string) (k : string)
      (P : A -> Prop) (l : list A) :
  Forall P l -> Forall P (members key k l).
Proof.
  rewrite !Forall_forall. intros H a Ha. apply H.
  unfold members in Ha. now apply filter_In in Ha.
Qed.

Lemma grouped_topics_in_scale (top : Z) (rows : list result_row) :
  Forall (fun r => (0 <= metric_level r <= top)%Z /\ 0 <= topic_weight r /\
                   0 <= pillar_weight r) rows ->
  Forall (fun kt : string * topic_entry =>
            0 <= te_weight (snd kt) /\
            Forall (fun m => 0 <= me_score m /\ me_score m <= inject_Z top)
                   (te_metrics (snd kt)))
         (grouped_topics rows).
Proof.
  intros Hrows. unfold grouped_topics.
  induction (distinct (map topic_id rows)) as [| k ks IH]; [constructor |].
  cbn [flat_map]. apply Forall_app. split; [| exact IH].
  pose proof (Forall_members topic_id k _ _ Hrows) as Hmem.
  destruct (members topic_id k rows) as [| r0 rest] eqn:Em; [constructor |].
  constructor; [| constructor]. cbn [snd te_weight te_metrics]. split.
  - inversion Hmem; tauto.
  - apply Forall_map_iff. eapply Forall_impl; [| exact Hmem].
    intros r ((Hlo & Hhi) & _). cbn. unfold calculate_metric_score.
    change 0 with (inject_Z 0). rewrite <- !Zle_Qle. lia.
Qed.

Lemma grouped_pillars_in_scale (top : Z) (results : list result_row) :
  Forall (fun r => (0 <= metric_level r <= top)%Z /\ 0 <= topic_weight r /\
                   0 <= pillar_weight r) results ->
  Forall (fun kp : string * pillar_entry =>
            0 <= pe_weight (snd kp) /\
            Forall (fun kt : string * topic_entry =>
                      0 <= te_weight (snd kt) /\
                      Forall (fun m => 0 <= me_score m /\
                                       me_score m <= inject_Z top)
                             (te_metrics (snd kt)))
                   (pe_topics (snd kp)))
         (grouped_pillars results).
Proof.
  intros Hrows. unfold grouped_pillars.
  induction (distinct (map pillar_id results)) as [| k ks IH]; [constructor |].
  cbn [flat_map]. apply Forall_app. split; [| exact IH].
  pose proof (Forall_members pillar_id k _ _ Hrows) as Hmem.
  destruct (members pillar_id k results) as [| r0 rest] eqn:Em;
    [constructor |].
  constructor; [| constructor]. cbn [snd pe_weight pe_topics]. split.
  - inversion Hmem; tauto.
  - now apply grouped_topics_in_scale.
Qed.

Lemma topic_value_in_scale (top : Q) (t : topic_entry) :
  0 <= top ->
  Forall (fun m => 0 <= me_score m /\ me_score m <= top) (te_metrics t) ->
  0 <= topic_value t /\ topic_value t <= top.
Proof.
  intros Htop Hall.
  destruct (topic_score_within (te_metrics t) 0 top Hall) as (q & Hq & Hb).
  rewrite calculate_topic_score_value in Hq. injection Hq as <-.
  apply Hb. right. split; [lra | assumption].
Qed.

Lemma pillar_value_in_scale (top : Q) (p : pillar_entry) :
  0 <= top ->
  Forall (fun kt : string * topic_entry =>
            0 <= te_weight (snd kt) /\
            Forall (fun m => 0 <= me_score m /\ me_score m <= top)
                   (te_metrics (snd kt)))
         (pe_topics p) ->
  0 <= pillar_value p /\ pillar_value p <= top.
Proof.
  intros Htop Hall.
  destruct (pillar_score_within
              (map (fun kt : string * topic_entry =>
                      {| ts_score := topic_value (snd kt);
                         ts_weight := te_weight (snd kt) |})
                   (pe_topics p)) 0 top) as (q & Hq & Hb).
  - apply Forall_map_iff. eapply Forall_impl; [| exact Hall].
    intros kt (Hw & Hms). cbn. split; [assumption |].
    now apply topic_value_in_scale.
  - rewrite calculate_pillar_score_value, map_map in Hq. cbn in Hq.
    injection Hq as <-. apply Hb. right. split; [lra | assumption].
Qed.

(** X9: when every answered metric has a level between 0 and [top] and no topic
    or pillar weight is negative, every score of the report, rounded or
    not, lies between 0 and [top]: the topic rows, the pillar rows and the
    overall score. *)
Theorem report_scores_in_scale
        (rds_data : rds_client) (sid : string) (total_metrics top : Z) :
  get_assessment_results rds_data sid <> [] ->
  select_active_metric_count rds_data = Ok total_metrics ->
  Forall (fun r => (0 <= metric_level r <= top)%Z /\ 0 <= topic_weight r /\
                   0 <= pillar_weight r)
         (get_assessment_results rds_data sid) ->
  exists report,
    calculate_scores rds_data sid = Ok report /\
    0 <= overall_score report /\ overall_score report <= inject_Z top /\
    Forall (fun row => 0 <= ps_score row /\ ps_score row <= inject_Z top)
           (pillar_scores report) /\
    Forall (fun row => 0 <= tsr_score row /\ tsr_score row <= inject_Z top)
           (topic_scores report).
Proof.
  intros Hne Hcount Hrows.
  rewrite (calculate_scores_report rds_data sid total_metrics Hne Hcount).
  eexists. split; [reflexivity |].
  cbn [overall_score pillar_scores topic_scores].
  assert (Htop : 0 <= inject_Z top).
  { destruct (get_assessment_results rds_data sid) as [| r rs];
      [congruence |].
    inversion Hrows as [| ? ? ((Hlo & Hhi) & _) _]; subst.
    change 0 with (inject_Z 0). rewrite <- Zle_Qle. lia. }
  pose proof (grouped_pillars_in_scale top _ Hrows) as Hgrouped.
  assert (Hpillars :
            Forall (fun row => 0 <= ps_weight row /\ 0 <= ps_score row /\
                               ps_score row <= inject_Z top)
                   (pillar_rows_of
                      (grouped_pillars (get_assessment_results rds_data sid)))).
  { unfold pillar_rows_of. apply Forall_map_iff.
    eapply Forall_impl; [| exact Hgrouped].
    intros kp (Hw & Htopics). cbn [pillar_row_of ps_weight ps_score].
    split; [assumption |].
    destruct (pillar_value_in_scale (inject_Z top) (snd kp) Htop Htopics)
      as (Hlo & Hhi).
    apply (round_between_integers _ 0 top); assumption. }
  assert (Hoverall :
            0 <= overall_value
                   (pillar_rows_of
                      (grouped_pillars (get_assessment_results rds_data sid)))
            /\ overall_value
                 (pillar_rows_of
                    (grouped_pillars (get_assessment_results rds_data sid)))
               <= inject_Z top).
  { destruct (calculate_overall_score_bounds _ 0 (inject_Z top) Hpillars)
      as (q & Hq & Hb); [lra | assumption |].
    rewrite calculate_overall_score_value in Hq. injection Hq as <-.
    exact Hb. }
  destruct Hoverall as (Holo & Hohi).
  refine (conj _ (conj _ (conj _ _))).
  - apply (round_between_integers _ 0 top); assumption.
  - apply (round_between_integers _ 0 top); assumption.
  - eapply Forall_impl; [| exact Hpillars]. cbn. tauto.
  - unfold topic_rows_of. clear Hpillars Holo Hohi.
    induction Hgrouped as [| kp pd (Hw & Htopics) _ IH]; [constructor |].
    cbn [flat_map]. apply Forall_app. split; [| exact IH].
    apply Forall_map_iff. eapply Forall_impl; [| exact Htopics].
    intros kt (Hwt & Hms). cbn [topic_row_of tsr_score].
    destruct (topic_value_in_scale (inject_Z top) (snd kt) Htop Hms)
      as (Hlo & Hhi).
    apply (round_between_integers _ 0 top); assumption.
Qed.

Lemma report_scores_in_scale_witness :
  exists report,
    calculate_scores (rds_of Samples.session_two_pillars (Ok 7%Z)) "s1"
    = Ok report /\
    0 <= overall_score report /\ overall_score report <= 5.
Proof.
  destruct (report_scores_in_scale
              (rds_of Samples.session_two_pillars (Ok 7%Z)) "s1" 7 5)
    as (report & Hreport & Hlo & Hhi & _).
  - discriminate.
  - reflexivity.
  - repeat constructor; cbn; (lia || lra).
  - exists report. split; [exact Hreport |]. split; [exact Hlo | exact Hhi].
Defined.

(** ** Completion percentage *)

(** X10: when the answers of a session are no more than the active metrics, the
    completion percentage of the report lies between 0 and 100. *)
Theorem completion_percentage_range
        (rds_data : rds_client) (sid : string) (total_metrics : Z) :
  get_assessment_results rds_data sid <> [] ->
  select_active_metric_count rds_data = Ok total_metrics ->
  (Z.of_nat (List.length (get_assessment_results rds_data sid))
   <= total_metrics)%Z ->
  exists report v,
    calculate_scores rds_data sid = Ok report /\
    dict_get "completion_percentage" (statistics report) = Some v /\
    0 <= num_value v /\ num_value v <= 100.
Proof.
  intros Hne Hcount Hle.
  rewrite (calculate_scores_report rds_data sid total_metrics Hne Hcount).
  do 2 eexists. split; [reflexivity |]. split; [reflexivity |].
  set (answered := Z.of_nat (List.length (get_assessment_results rds_data sid)))
    in *.
  assert (Hanswered : (0 <= answered)%Z) by (unfold answered; lia).
  destruct (Z.ltb_spec 0 total_metrics) as [Hpos | Hneg];
    cbn [num_value]; [| split; unfold Qle; cbn; lia].
  assert (Ht : 0 < inject_Z total_metrics).
  { change 0 with (inject_Z 0). rewrite <- Zlt_Qlt. exact Hpos. }
  assert (Ha : 0 <= inject_Z answered).
  { change 0 with (inject_Z 0). rewrite <- Zle_Qle. exact Hanswered. }
  assert (Hat : inject_Z answered <= inject_Z total_metrics)
    by (rewrite <- Zle_Qle; exact Hle).
  assert (Hq : 0 <= inject_Z answered / inject_Z total_metrics /\
               inject_Z answered / inject_Z total_metrics <= 1).
  { split.
    - apply Qle_shift_div_l; [assumption | lra].
    - apply Qle_shift_div_r; [assumption | lra]. }
  destruct Hq as (Hq0 & Hq1).
  apply (round_between_integers _ 0 100).
  - change (inject_Z 0) with 0. lra.
  - change (inject_Z 100) with 100. lra.
Qed.

Lemma completion_percentage_range_witness :
  exists report v,
    calculate_scores (rds_of Samples.session_two_pillars (Ok 7%Z)) "s1"
    = Ok report /\
    dict_get "completion_percentage" (statistics report) = Some v /\
    0 <= num_value v /\ num_value v <= 100.
Proof.
  apply (completion_percentage_range
           (rds_of Samples.session_two_pillars (Ok 7%Z)) "s1" 7).
  - discriminate.
  - reflexivity.
  - cbn. lia.
Defined.

(** ** The handler of the score lambda *)

(** X11: every response of the score handler is one of two: status 200 with the
    report of the session named by the first [sessionId] parameter as its
    body and the session attributes of the event echoed, or status 500 with
    an error body and no session attributes. *)
Theorem score_handler_outcome (rds_data : rds_client) (ev : event) :
  let response := lambda_handler rds_data ev in
  (r_httpStatusCode response = 200%Z /\
   exists sid report,
     sid <> ""%string /\
     find_parameter "sessionId" (get_default (ev_parameters ev) []) = Some sid /\
     calculate_scores rds_data sid = Ok report /\
     r_body response = BodyResult report /\
     ev_actionGroup ev = Some (r_actionGroup response) /\
     r_sessionAttributes response
     = Some (get_default (ev_sessionAttributes ev) [])) \/
  (r_httpStatusCode response = 500%Z /\
   (exists error, r_body response = BodyError error "Failed to calculate scores") /\
   r_actionGroup response = get_default (ev_actionGroup ev) ""%string /\
   r_sessionAttributes response = None).
Proof.
  cbv zeta. unfold lambda_handler, handle.
  destruct (find_parameter "sessionId" (get_default (ev_parameters ev) []))
    as [[| c sid] |] eqn:Hfind; cbn; eauto 8.
  destruct (calculate_scores rds_data (String c sid)) as [report | e] eqn:Hcalc;
    cbn; eauto 8.
  destruct (ev_actionGroup ev) as [actionGroup |]; cbn; eauto 8.
  destruct (ev_apiPath ev) as [apiPath |]; cbn; eauto 8.
  destruct (ev_httpMethod ev) as [httpMethod |]; cbn; eauto 8.
  left. split; [reflexivity |].
  exists (String c sid), report. repeat split; try assumption. discriminate.
Qed.

(** X12: the score handler answers 500 in three cases, each with its own error
    text: a request without a [sessionId] parameter or with an empty one is
    refused before the database is read; a count statement that fails for a
    session with answers passes its message on; an event without
    [actionGroup] fails after the calculation. *)
Theorem score_handler_errors (rds_data : rds_client) (ev : event) :
  (find_parameter "sessionId" (get_default (ev_parameters ev) []) = None \/
   find_parameter "sessionId" (get_default (ev_parameters ev) [])
   = Some ""%string ->
   r_httpStatusCode (lambda_handler rds_data ev) = 500%Z /\
   r_body (lambda_handler rds_data ev)
   = BodyError "sessionId parameter is required" "Failed to calculate scores") /\
  (forall sid e,
      sid <> ""%string ->
      find_parameter "sessionId" (get_default (ev_parameters ev) []) = Some sid ->
      get_assessment_results rds_data sid <> [] ->
      select_active_metric_count rds_data = Raise e ->
      r_httpStatusCode (lambda_handler rds_data ev) = 500%Z /\
      r_body (lambda_handler rds_data ev)
      = BodyError (str_exn e) "Failed to calculate scores") /\
  (forall sid report,
      sid <> ""%string ->
      find_parameter "sessionId" (get_default (ev_parameters ev) []) = Some sid ->
      calculate_scores rds_data sid = Ok report ->
      ev_actionGroup ev = None ->
      r_httpStatusCode (lambda_handler rds_data ev) = 500%Z /\
      r_body (lambda_handler rds_data ev)
      = BodyError "'actionGroup'" "Failed to calculate scores").
Proof.
  refine (conj _ (conj _ _)).
  - unfold lambda_handler, handle. intros [-> | ->]; cbn; now split.
  - intros sid e Hsid Hfind Hne Hcount.
    assert (Hcalc : calculate_scores rds_data sid = Raise e).
    { unfold calculate_scores.
      destruct (get_assessment_results rds_data sid) as [| r results];
        [congruence |].
      rewrite group_results_loop, score_topics_value. cbn [bind].
      rewrite score_pillars_value. cbn [bind].
      rewrite calculate_overall_score_value, Hcount. reflexivity. }
    unfold lambda_handler, handle. rewrite Hfind.
    destruct sid as [| c sid]; [congruence |].
    rewrite Hcalc. cbn. now split.
  - intros sid report Hsid Hfind Hcalc Hgroup.
    unfold lambda_handler, handle. rewrite Hfind.
    destruct sid as [| c sid]; [congruence |].
    rewrite Hcalc, Hgroup. cbn. now split.
Qed.

Lemma score_handler_errors_witness :
  r_httpStatusCode
    (lambda_handler (rds_of session_five_answers (Ok 20%Z))
                    (sample_event [ answers_parameter "[]" ]))
  = 500%Z /\
  r_body
    (lambda_handler
       (rds_of session_five_answers (Raise (ClientError "timeout")))
       (sample_event [ session_parameter "s1" ]))
  = BodyError "timeout" "Failed to calculate scores".
Proof.
  split.
  - destruct (score_handler_errors
                (rds_of session_five_answers (Ok 20%Z))
                (sample_event [ answers_parameter "[]" ])) as (Hmissing & _).
    apply Hmissing. left. reflexivity.
  - destruct (score_handler_errors
                (rds_of session_five_answers (Raise (ClientError "timeout")))
                (sample_event [ session_parameter "s1" ]))
      as (_ & Hcount & _).
    apply (Hcount "s1"%string (ClientError "timeout")).
    + discriminate.
    + reflexivity.
    + discriminate.
    + reflexivity.
Defined.

(** X13: a fault of the answers statement is swallowed: the calculation behaves
    as for a session without answers, and returns the all-zero report of
    level INITIAL instead of an error. *)
Theorem results_fault_is_empty_session
        (rds_data : rds_client) (sid : string) (e : exn) :
  select_assessment_results rds_data sid = Raise e ->
  get_assessment_results rds_data sid = [] /\
  exists report,
    calculate_scores rds_data sid = Ok report /\
    calculate_scores
      {| select_assessment_results := fun _ => Ok [];
         select_active_metric_count := select_active_metric_count rds_data |}
      sid = Ok report /\
    overall_score report = 0.0 /\
    maturity_level report = "INITIAL"%string /\
    dict_get "answered_metrics" (statistics report) = Some (PInt 0).
Proof.
  intros Hfault.
  assert (Hempty : get_assessment_results rds_data sid = []).
  { unfold get_assessment_results. now rewrite Hfault. }
  split; [exact Hempty |].
  unfold calculate_scores. rewrite Hempty. cbn.
  eexists. repeat split.
Qed.

Lemma results_fault_is_empty_session_witness :
  exists report,
    calculate_scores
      {| select_assessment_results := fun _ => Raise (ClientError "timeout");
         select_active_metric_count := Ok 20%Z |} "s1" = Ok report /\
    maturity_level report = "INITIAL"%string.
Proof.
  destruct (results_fault_is_empty_session
              {| select_assessment_results :=
                   fun _ => Raise (ClientError "timeout");
                 select_active_metric_count := Ok 20%Z |}
              "s1" (ClientError "timeout") eq_refl)
    as (_ & report & Hreport & _ & _ & Hlevel & _).
  exists report. split; [exact Hreport | exact Hlevel].
Defined.

(** ** The metric details lambda *)

(** X14: for a request that names a metric, the metric handler never answers
    500 for want of data: its body is what [get_metric_details] returns,
    with status 200 and the details of the first record, under the requested
    id, when the statement finds a record; status 404 when it finds none;
    and status 404 too, with the fault's message and the requested id, when
    the statement fails. *)
Theorem metric_handler_outcome
        (rds_data : GetMetricDetails.rds_client) (metric_id : string)
        (parameters : list GetMetricDetails.parameter)
        (actionGroup apiPath httpMethod : string)
        (sessionAttributes promptSessionAttributes : option (dict string)) :
  metric_id <> ""%string ->
  GetMetricDetails.find_parameter "metricId" parameters = Some metric_id ->
  let response :=
    GetMetricDetails.lambda_handler rds_data
      {| GetMetricDetails.ev_actionGroup := Some actionGroup;
         GetMetricDetails.ev_apiPath := Some apiPath;
         GetMetricDetails.ev_httpMethod := Some httpMethod;
         GetMetricDetails.ev_parameters := Some parameters;
         GetMetricDetails.ev_sessionAttributes := sessionAttributes;
         GetMetricDetails.ev_promptSessionAttributes :=
           promptSessionAttributes |} in
  GetMetricDetails.r_body response
  = GetMetricDetails.BodyData
      (GetMetricDetails.get_metric_details rds_data metric_id) /\
  match GetMetricDetails.select_metric rds_data metric_id with
  | Ok (record :: _) =>
      GetMetricDetails.r_httpStatusCode response = 200%Z /\
      exists metric topic pillar guidance,
        GetMetricDetails.get_metric_details rds_data metric_id
        = GetMetricDetails.MetricDetails metric topic pillar guidance /\
        GetMetricDetails.m_id metric = metric_id /\
        GetMetricDetails.m_name metric = GetMetricDetails.metric_name record /\
        GetMetricDetails.m_level metric = GetMetricDetails.level record /\
        GetMetricDetails.t_id topic = GetMetricDetails.topic_id record /\
        GetMetricDetails.pl_id pillar = GetMetricDetails.pillar_id record
  | Ok [] =>
      GetMetricDetails.r_httpStatusCode response = 404%Z
  | Raise e =>
      GetMetricDetails.r_httpStatusCode response = 404%Z /\
      GetMetricDetails.get_metric_details rds_data metric_id
      = GetMetricDetails.MetricError (str_exn e) metric_id
  end.
Proof.
  intros Hid Hparam. cbv zeta.
  unfold GetMetricDetails.lambda_handler, GetMetricDetails.handle.
  cbn [GetMetricDetails.ev_parameters GetMetricDetails.get_default].
  rewrite Hparam. destruct metric_id as [| c rest]; [congruence |].
  cbn [GetMetricDetails.ev_actionGroup GetMetricDetails.ev_apiPath
       GetMetricDetails.ev_httpMethod GetMetricDetails.getitem bind
       GetMetricDetails.r_body GetMetricDetails.r_httpStatusCode].
  split; [reflexivity |].
  unfold GetMetricDetails.get_metric_details.
  destruct (GetMetricDetails.select_metric rds_data (String c rest))
    as [[| record records] | e]; cbn.
  - reflexivity.
  - split; [reflexivity |]. do 4 eexists. repeat split.
  - split; reflexivity.
Qed.

Lemma metric_handler_outcome_witness :
  GetMetricDetails.r_httpStatusCode
    (GetMetricDetails.lambda_handler
       {| GetMetricDetails.select_metric :=
            fun _ => Raise (ClientError "timeout") |}
       (metric_event "m1"))
  = 404%Z.
Proof.
  destruct (metric_handler_outcome
              {| GetMetricDetails.select_metric :=
                   fun _ => Raise (ClientError "timeout") |}
              "m1"
              [ {| GetMetricDetails.p_name := "metricId";
                   GetMetricDetails.p_type := "string";
                   GetMetricDetails.p_value := "m1" |} ]
              "AssessmentContextActions" "/metric/details" "GET"
              (Some []) (Some [])) as (_ & Hstatus & _).
  - discriminate.
  - reflexivity.
  - exact Hstatus.
Defined.

(** ** The session context lambda *)

Import GetAssessmentContext Samples.

Lemma completion_value (answered total : Z) :
  completion answered total
  = Ok (if (0 <? total)%Z
        then PFloat (round (inject_Z answered / inject_Z total * 100) 1)
        else PInt 0).
Proof.
  unfold completion. rewrite Z.gtb_ltb.
  destruct (Z.ltb_spec 0 total) as [Hpos | Hneg]; [| reflexivity].
  rewrite truediv_nonzero; [reflexivity |].
  unfold Qeq. simpl. lia.
Qed.

(** Case analysis on the first computation of a chain that has returned. *)
Ltac returned H :=
  repeat match type of H with
         | bind ?m _ = Ok _ =>
             let E := fresh "E" in
             destruct m eqn:E; cbn [bind] in H; [| discriminate H]
         end.



Lemma session_details_returned
      (rds_data : rds_client) (sid : string)
      (session : session_info) (target : target_info)
      (current_pillar organization : option named_ref)
      (progress : progress_info) (recent : list recent_answer)
      (pillars : list pillar_progress_row) :
  get_session_details rds_data sid
  = SessionData session target current_pillar organization progress recent
                pillars ->
  exists record rest progress_record pillar_records,
    select_session rds_data sid = Ok (record :: rest) /\
    select_progress rds_data sid = Ok progress_record /\
    select_active_metric_count rds_data = Ok (pr_total_metrics progress) /\
    longValue (c_answered_count progress_record)
    = Some (pr_answered_metrics progress) /\
    select_recent_answers rds_data sid = Ok recent /\
    select_pillar_progress rds_data sid = Ok pillar_records /\
    mapM pillar_progress_of pillar_records = Ok pillars /\
    session_details_of rds_data sid record
    = Ok (SessionData session target current_pillar organization progress
                      recent pillars).
Proof.
  unfold get_session_details, session_details_try. intros H.
  destruct (select_session rds_data sid) as [[| record rest] | e] eqn:Es;
    cbn [bind] in H; try discriminate H.
  destruct (session_details_of rds_data sid record) as [c | e] eqn:Ed;
    [| discriminate H].
  subst c. exists record, rest.
  pose proof Ed as Hd. unfold session_details_of in Hd.
  returned Hd. injection Hd as <- <- <- <- <- <- <-.
  match goal with
  | Hp : select_progress _ _ = Ok ?p,
    Hr : select_pillar_progress _ _ = Ok ?rs,
    Hl : get_long (c_answered_count ?p) = Ok _ |- _ =>
      exists p, rs; unfold get_long in Hl;
      destruct (longValue (c_answered_count p)); [| discriminate Hl];
      injection Hl as ->
  end.
  cbn [pr_total_metrics pr_answered_metrics].
  repeat split; assumption.
Qed.




(** X16: when the session statement finds no record, [get_session_details]
    returns the error variant that names the requested session, without
    sending any of the four other statements: whatever they would answer,
    the result is the same. *)
Theorem session_not_found (rds_data : rds_client) (sid : string) :
  select_session rds_data sid = Ok [] ->
  get_session_details rds_data sid
  = SessionError ("Assessment session not found: " ++ sid)%string sid /\
  forall other : rds_client,
    select_session other sid = Ok [] ->
    get_session_details other sid = get_session_details rds_data sid.
Proof.
  intros Hnone. unfold get_session_details, session_details_try.
  rewrite Hnone. split; [reflexivity |].
  intros other Hother. now rewrite Hother.
Qed.

Lemma session_not_found_witness :
  get_session_details no_sessions "s9"
  = SessionError "Assessment session not found: s9" "s9".
Proof.
  exact (proj1 (session_not_found no_sessions "s9" eq_refl)).
Defined.

(** X17: [get_session_details] returns a context, and raises nothing, whenever
    the five statements answer and the columns it indexes are there: the
    required text columns of the session, the answered count, and the four
    columns of each pillar record.  No count makes it fail: a total of zero
    active metrics, or a pillar without active metrics, gives completion 0. *)
Theorem session_context_returned
        (rds_data : rds_client) (sid : string)
        (record : session_record) (rest : list session_record)
        (progress_record : progress_record) (total answered : Z)
        (recent : list recent_answer)
        (pillar_records : list pillar_progress_record) :
  select_session rds_data sid = Ok (record :: rest) ->
  Forall (fun column => stringValue column <> None)
         [ c_status record; c_started_at record; c_last_modified record;
           c_target_id record; c_target_name record; c_target_type record ] ->
  select_progress rds_data sid = Ok progress_record ->
  select_active_metric_count rds_data = Ok total ->
  longValue (c_answered_count progress_record) = Some answered ->
  select_recent_answers rds_data sid = Ok recent ->
  select_pillar_progress rds_data sid = Ok pillar_records ->
  Forall (fun rec =>
            longValue (c_pp_total rec) <> None /\
            longValue (c_pp_answered rec) <> None /\
            stringValue (c_pp_id rec) <> None /\
            stringValue (c_pp_name rec) <> None)
         pillar_records ->
  exists session target current_pillar organization progress pillars,
    get_session_details rds_data sid
    = SessionData session target current_pillar organization progress recent
                  pillars /\
    pr_total_metrics progress = total /\
    pr_answered_metrics progress = answered /\
    pr_remaining_metrics progress = (total - answered)%Z.
Proof.
  intros Hs Hcolumns Hp Ht Ha Hr Hpp Hrecords.
  assert (Hrows : exists pillars,
             mapM pillar_progress_of pillar_records = Ok pillars).
  { destruct (mapM_total pillar_progress_of (fun _ => True) pillar_records)
      as (pillars & Hpillars & _); [| eauto].
    intros rec Hin. rewrite Forall_forall in Hrecords.
    destruct (Hrecords rec Hin) as (H1 & H2 & H3 & H4).
    unfold pillar_progress_of, get_long, get_string.
    destruct (longValue (c_pp_total rec)); [| congruence].
    destruct (longValue (c_pp_answered rec)); [| congruence].
    destruct (stringValue (c_pp_id rec)); [| congruence].
    destruct (stringValue (c_pp_name rec)); [| congruence].
    cbn [bind]. rewrite completion_value. cbn [bind]. eauto. }
  destruct Hrows as (pillars & Hpillars).
  unfold get_session_details, session_details_try. rewrite Hs. cbn [bind].
  unfold session_details_of, get_string, get_long.
  repeat match goal with
         | H : Forall _ (_ :: _) |- _ => inversion H; clear H; subst
         end.
  repeat match goal with
         | H : stringValue ?c <> None |- _ =>
             destruct (stringValue c); [clear H | congruence]
         end.
  cbn [bind]. rewrite Hp. cbn [bind]. rewrite Ht. cbn [bind].
  rewrite Ha. cbn [bind]. rewrite completion_value. cbn [bind].
  rewrite Hr. cbn [bind]. rewrite Hpp. cbn [bind].
  rewrite Hpillars. cbn [bind].
  do 6 eexists. split; [reflexivity |]. repeat split.
Qed.

Lemma session_context_returned_witness :
  exists session target current_pillar organization progress pillars,
    get_session_details (context_rds 0 0) "s1"
    = SessionData session target current_pillar organization progress []
                  pillars /\
    pr_total_metrics progress = 0%Z /\
    pr_answered_metrics progress = 0%Z /\
    pr_remaining_metrics progress = 0%Z.
Proof.
  apply (session_context_returned
           (context_rds 0 0) "s1" session_in_progress [] (progress_of 0) 0 0 []
           [ pillar_counts "p1" 0 0; pillar_counts "p2" 0 0 ]);
    try reflexivity.
  - repeat constructor; discriminate.
  - repeat constructor; discriminate.
Defined.

(** X18: an optional column reaches the context only when the record says
    [isNull: False] beside it: the completion date is reported exactly when
    its column has that flag and a text, and the current pillar and the
    organization are present exactly when their id column has that flag.  A
    column sent with a value but without the flag is reported as absent. *)
Theorem session_context_optional_columns
        (rds_data : rds_client) (sid : string)
        (session : session_info) (target : target_info)
        (current_pillar organization : option named_ref)
        (progress : progress_info) (recent : list recent_answer)
        (pillars : list pillar_progress_row) :
  get_session_details rds_data sid
  = SessionData session target current_pillar organization progress recent
                pillars ->
  exists record rest,
    select_session rds_data sid = Ok (record :: rest) /\
    (forall date,
        si_completed_at session = Some date <->
        isNull (c_completed_at record) = Some false /\
        stringValue (c_completed_at record) = Some date) /\
    (current_pillar <> None <-> isNull (c_pillar_id record) = Some false) /\
    (organization <> None <-> isNull (c_org_id record) = Some false) /\
    tg_description target
    = match stringValue (c_target_description record) with
      | Some description => description
      | None => ""%string
      end.
Proof.
  intros H.
  destruct (session_details_returned _ _ _ _ _ _ _ _ _ H)
    as (record & rest & progress_record & pillar_records
        & Hs & _ & _ & _ & _ & _ & _ & Hd).
  exists record, rest. split; [exact Hs |].
  unfold session_details_of in Hd. returned Hd.
  injection Hd as <- <- <- <- <- <- <-.
  cbn [si_completed_at tg_description].
  unfold nullable_string, named_ref_of, not_null, string_or.
  repeat split.
  - destruct (isNull (c_completed_at record)) as [[|] |]; congruence.
  - destruct (isNull (c_completed_at record)) as [[|] |]; congruence.
  - intros (Hflag & Htext). now rewrite Hflag.
  - destruct (isNull (c_pillar_id record)) as [[|] |]; congruence.
  - intros ->. discriminate.
  - destruct (isNull (c_org_id record)) as [[|] |]; congruence.
  - intros ->. discriminate.
Qed.

Lemma session_context_optional_columns_witness :
  exists session target current_pillar progress recent pillars,
    get_session_details (context_rds 5 20) "s1"
    = SessionData session target current_pillar None progress recent pillars /\
    current_pillar <> None /\
    stringValue (c_org_id session_in_progress) = Some "o1"%string.
Proof.
  do 6 eexists. split; [vm_compute; reflexivity |].
  destruct (session_context_optional_columns
              (context_rds 5 20) "s1" _ _ _ _ _ _ _ eq_refl)
    as (record & rest & Hs & _ & Hpillar & _).
  injection Hs as <- _.
  split; [apply Hpillar; reflexivity | reflexivity].
Defined.

(** X19: for a request that names a session, the context handler answers with
    what [get_session_details] returns as its body, with status 200 for a
    context and 404 for the error variant; a fault of the session statement
    is answered with 404 as well, with the fault's message and the requested
    id, and so is a session record without its status text. *)
Theorem context_handler_outcome
        (rds_data : rds_client) (sid : string)
        (parameters : list parameter)
        (actionGroup apiPath httpMethod : string)
        (sessionAttributes promptSessionAttributes : option (dict string)) :
  sid <> ""%string ->
  find_parameter "sessionId" parameters = Some sid ->
  let response :=
    lambda_handler rds_data
      {| ev_actionGroup := Some actionGroup;
         ev_apiPath := Some apiPath;
         ev_httpMethod := Some httpMethod;
         ev_parameters := Some parameters;
         ev_sessionAttributes := sessionAttributes;
         ev_promptSessionAttributes := promptSessionAttributes |} in
  r_body response = BodyContext (get_session_details rds_data sid) /\
  r_httpStatusCode response
  = (if has_error (get_session_details rds_data sid) then 404 else 200)%Z /\
  (forall e,
      select_session rds_data sid = Raise e ->
      r_httpStatusCode response = 404%Z /\
      get_session_details rds_data sid = SessionError (str_exn e) sid) /\
  (forall record rest,
      select_session rds_data sid = Ok (record :: rest) ->
      stringValue (c_status record) = None ->
      r_httpStatusCode response = 404%Z /\
      get_session_details rds_data sid = SessionError "'stringValue'" sid).
Proof.
  intros Hsid Hparam. cbv zeta.
  unfold lambda_handler, handle. cbn [ev_parameters get_default].
  rewrite Hparam. destruct sid as [| c rest]; [congruence |].
  cbn [ev_actionGroup ev_apiPath ev_httpMethod getitem bind r_body
       r_httpStatusCode].
  split; [reflexivity |]. split; [reflexivity |]. split.
  - intros e He. unfold get_session_details, session_details_try.
    rewrite He. cbn. now split.
  - intros record records Hs Hstatus.
    unfold get_session_details, session_details_try. rewrite Hs. cbn [bind].
    unfold session_details_of, get_string. rewrite Hstatus. cbn. now split.
Qed.

Lemma context_handler_outcome_witness :
  r_httpStatusCode (lambda_handler (context_rds 5 20) (context_event "s1"))
  = 200%Z /\
  r_httpStatusCode (lambda_handler no_sessions (context_event "s9"))
  = 404%Z.
Proof.
  split.
  - destruct (context_handler_outcome
                (context_rds 5 20) "s1"
                [ {| p_name := "sessionId"; p_type := "string";
                     p_value := "s1" |} ]
                "AssessmentContextActions" "/session/context" "GET"
                (Some []) (Some [])) as (_ & Hstatus & _).
    + discriminate.
    + reflexivity.
    + exact Hstatus.
  - destruct (context_handler_outcome
                no_sessions "s9"
                [ {| p_name := "sessionId"; p_type := "string";
                     p_value := "s9" |} ]
                "AssessmentContextActions" "/session/context" "GET"
                (Some []) (Some [])) as (_ & Hstatus & _).
    + discriminate.
    + reflexivity.
    + exact Hstatus.
Defined.

(** ** The two lambdas agree on completion *)

(** X20: for a session with answers, the score report and the session context
    give the same completion percentage and the same total whenever their
    counts agree: the same number of active metrics, and as many loaded
    answers as the answered count. *)
Theorem completion_agrees
        (score_rds : CalculateScore.rds_client) (context_rds : rds_client)
        (sid : string)
        (session : session_info) (target : target_info)
        (current_pillar organization : option named_ref)
        (progress : progress_info) (recent : list recent_answer)
        (pillars : list pillar_progress_row) :
  get_assessment_results score_rds sid <> [] ->
  CalculateScore.select_active_metric_count score_rds
  = Ok (pr_total_metrics progress) ->
  get_session_details context_rds sid
  = SessionData session target current_pillar organization progress recent
                pillars ->
  pr_answered_metrics progress
  = Z.of_nat (List.length (get_assessment_results score_rds sid)) ->
  exists report,
    calculate_scores score_rds sid = Ok report /\
    dict_get "total_metrics" (statistics report)
    = Some (PInt (pr_total_metrics progress)) /\
    dict_get "answered_metrics" (statistics report)
    = Some (PInt (pr_answered_metrics progress)) /\
    dict_get "completion_percentage" (statistics report)
    = Some (pr_completion_percentage progress).
Proof.
  intros Hne Hcount Hcontext Hanswered.
  rewrite (calculate_scores_report score_rds sid _ Hne Hcount).
  eexists. split; [reflexivity |]. cbn [statistics].
  destruct (session_details_returned _ _ _ _ _ _ _ _ _ Hcontext)
    as (record & rest & progress_record & pillar_records
        & _ & _ & _ & _ & _ & _ & _ & Hd).
  unfold session_details_of in Hd. returned Hd.
  rewrite completion_value in *.
  injection Hd as <- <- <- <- <- <- <-.
  cbn [pr_total_metrics pr_answered_metrics pr_completion_percentage] in *.
  rewrite <- Hanswered.
  repeat split. cbn. congruence.
Qed.

Lemma completion_agrees_witness :
  exists report,
    calculate_scores (rds_of session_five_answers (Ok 20%Z)) "s1" = Ok report /\
    dict_get "completion_percentage" (statistics report) = Some (PFloat 25.0).
Proof.
  destruct (completion_agrees
              (rds_of session_five_answers (Ok 20%Z)) (Samples.context_rds 5 20)
              "s1"
              {| si_id := "s1";
                 si_status := "IN_PROGRESS";
                 si_started_at := "2024-01-01";
                 si_completed_at := None;
                 si_last_modified := "2024-01-02";
                 si_current_pillar_id := Some "p1"%string |}
              {| tg_id := "t1";
                 tg_name := "Payments";
                 tg_type := "APPLICATION";
                 tg_description := "" |}
              (Some {| ref_id := Some "p1"%string;
                       ref_name := Some "Security"%string |})
              None
              {| pr_total_metrics := 20;
                 pr_answered_metrics := 5;
                 pr_remaining_metrics := 15;
                 pr_completion_percentage := PFloat 25.0;
                 pr_first_answer_at := Some "2024-01-01"%string;
                 pr_last_answer_at := Some "2024-01-02"%string |}
              []
              [ {| pp_pillar_id := "p1";
                   pp_pillar_name := "pillar p1";
                   pp_answered := 5;
                   pp_total := 20;
                   pp_completion_percentage := PFloat 25.0 |};
                {| pp_pillar_id := "p2";
                   pp_pillar_name := "pillar p2";
                   pp_answered := 0;
                   pp_total := 0;
                   pp_completion_percentage := PInt 0 |} ])
    as (report & Hreport & _ & _ & Hcompletion).
  - discriminate.
  - reflexivity.
  - vm_compute. reflexivity.
  - reflexivity.
  - exists report. split; [exact Hreport | exact Hcompletion].
Defined.
